(* ===== verification/_CoqProject ===== *)
-Q . S2P
Prelude.v
PySeq.v
Coords.v
Collab.v
Batch.v
BatchTrace.v
Console.v
Tooltip.v
MainApp.v
