(* ===== verification/Prelude.v ===== *)
(** * Cos_200_Mapping_Photos: a verification development of src/main.py

    ** The program
    One Python file, [src/main.py].  [main()] lists a folder ([os.listdir]),
    and for each entry opens it and parses it with [exif.Image]
    (lines 62-69), reads the pixel dimensions and the four GPS tags
    (lines 73-77), converts the degree/minute/second triples to signed
    decimal degrees with [decimal_coords] (lines 31-35) rounded to six
    decimals (lines 78-79), reverse-geocodes them with Nominatim (line 83),
    splits the address on ", " (line 85) and appends the entry to five
    parallel lists (lines 88-92).  Two bare [except:] clauses isolate the
    failures of one file.  It then prints a pandas dataframe of four of the
    lists (lines 104-106), centres a mapPy map on the mean latitude and
    longitude (line 110), adds one marker per kept photo with a tooltip
    made of the file name and two slices of the address (lines 116-122),
    saves and shows the map.

    ** Files, in dependency order
    - [Prelude] (this file): Python exceptions [exn], results [pyres], the
      state-and-exception monad [PyM] (state changes made before an
      exception persist, as in Python), [try_except] for a bare [except:],
      [py_for] for a [for] loop, [exec_on], the notation scope [py_scope]
      with [x <- m ;; k], the hint database [pymodel] and shared lemmas.
    - [PySeq]: CPython's semantics of the built-ins the code calls:
      [py_getitem] ([coords[i]]), [py_slice] ([l[:-6]], [l[-5:]]),
      [py_join] ([' '.join]), [py_contains] (['S' in ref]) and [py_split]
      ([str.split(sep)], raising [ValueError] on an empty separator).
    - [Coords]: [decimal_coords] and [py_round] ([round(x, n)], half to
      even on the exact value, through [round_half_even]).
    - [Collab]: the collaborators as type classes: [FileSystem]
      ([os.listdir] and the open/[Image]/close sequence, whose outcome is
      an [open_result]), [exif_image] (absent tags are [None] and raise
      [AttributeError] when read), [Geocoder] (Nominatim's [reverse] with a
      service state of its own), and the trace [event] of printed lines
      and file-handle operations.  Every theorem holds for every instance.
    - [Batch]: the loop of lines 49-101.  [batch_state] holds the five
      lists, the trace and the geocoder state; [open_exif_image],
      [read_exif] and [process_file] are one iteration statement by
      statement; [collect] is the loop and [batch_step] the same loop as a
      transition relation.  [extract] and [spec_collect] are the per-file
      contract of the spec (section 4.2) and its batch, against which the
      loop is proved.  [Demo] is a four-file folder used by the witnesses.
    - [BatchTrace]: the order of the loop's events, cut into one segment
      per file ([iteration_trace]).
    - [Console]: the text of the line printed at line 80: [py_print]
      ([print]'s separator and newline), [float6_text] ([str] of a value
      of [round(_, 6)], CPython's shortest repr: fixed notation, or
      scientific below [1e-4]) over a digit layer ([to_digits],
      [int_digits], [frac_digits]), [latlong_line], the readers
      [parse_float6] and [parse_latlong_line] that invert them, and the
      canonical shapes of CPython's repr ([canonical_int],
      [canonical_frac]).
    - [Tooltip]: [leading_group], [trailing_group] and [tooltip_str]
      (lines 118-120).
    - [MainApp]: mapPy ([MapPy.getCenterPoint], [createMap],
      [addMarkerWithImage]) and [pd_DataFrame], modelled from the spec
      and pandas' column check since they are not in the repository; the
      marker loop [add_markers]; [main_body], [main] and the script entry
      [module_main] ([if __name__ == "__main__"], lines 131-132).

    ** What is proved
    - Coordinates: the value and sign of [decimal_coords]
      ([decimal_coords_value]), [IndexError] on a short tuple, magnitude
      bounds; [round(x, n)] is within half a unit of the last decimal, is
      idempotent ([py_round_idem]), and commutes with negation, so a southern coordinate is
      exactly the negation of the northern one ([rounded_hemisphere_symmetry]).
    - Strings: [str.split] round trip with [join] ([py_split_join]), no
      piece contains the separator ([py_split_pieces]), and, for a
      separator such as ", " whose first character does not recur in it,
      the characterisation of the split as the only non-empty
      decomposition of the text into separator-free pieces
      ([py_split_spec], through [find_sep_join]: such a separator cannot
      straddle the end of a piece).
    - The loop: every iteration returns normally and appends a complete
      entry or none ([process_file_step]); the loop never raises
      ([collect_fault_isolation]); the five lists stay aligned in every
      reachable state ([reachable_aligned], by induction on [rtc
      batch_step], with the generic [rtc_preserved]); in every reachable
      state each coordinate is a six-decimal value and each address list
      is non-empty and free of ", " ([reachable_wf]); kept photos plus skip diagnostics equal the number of
      files ([collect_count]); the kept names are a sub-sequence of the
      listing ([collect_order]); the handles left open are exactly those
      of the files [Image] failed on ([collect_handles]); and the loop
      refines the spec's contract: its lists are the fields of the records
      located by [spec_collect], its skip diagnostics are those of the
      spec's outcomes, and it sends one geocoder request per file whose
      coordinates were converted ([collect_refines], by
      [process_file_refines] and [records_extend_trans]).
    - Order of events: the trace of the loop is one segment per listed
      file in listing order; each begins with the open of its file or the
      report that it could not be opened, sends at most one geocoder
      request, and sends it only after [src.close()] released the file
      ([collect_trace_segments]).
    - Tooltip: the component at position [len - 6] is dropped when there
      are six or more ([tooltip_groups_skip]); none is dropped with five or
      fewer; the tooltip is a single line ([tooltip_single_line]).
    - Console: [str] of a six-decimal value is CPython's repr, pinned by
      its shape (sign, fixed notation with no leading zero in the integer
      part and no trailing zero in the fraction from [1e-4] on,
      scientific [d[.d']e-0k] below), and reads back into the value
      ([float6_text_roundtrip]; the ninety-nine scientific values are
      checked by evaluation, the others by the digit lemmas).  Each
      stored pair [(latList[i], longList[i])] is the pair printed on its
      [lat, long:] line and the pair sent to the geocoder, and that line
      reads back into it ([collect_latlong_lines], through the invariant
      [coords_logged] and [latlong_line_readable]).
    - main, end to end: composing the loop's refinement with the run of
      main ([main_run_kept]), the dataframe main prints has the fields of
      the records the spec's contract locates as columns, and the map it
      saves and shows holds one marker per located record, in listing
      order, centred on their mean ([main_refines]).
    - main: when a photo was kept it completes, and the map it saves has
      the mean centre, zoom 14 and the expected marker of each photo
      ([main_map], through [add_markers_spec]).  With no photo kept it
      calls [getCenterPoint([])], whose behaviour mapPy's absence and the
      spec leave undetermined: the model raises [ZeroDivisionError] as a
      stand-in, and no theorem depends on it; an unlistable folder raises
      [OSError] ([main_listdir_error]); the marker loop raises
      [IndexError] when a list it indexes is shorter than [fileList]
      ([add_markers_misaligned]), the path the alignment invariant rules
      out.
    - Findings, each proved: the dropped address component, the one-line
      tooltip, the handle left open when [Image] raises
      ([image_failure_leaks_handle]), and the photo dropped when it lacks
      pixel dimensions ([missing_dims_drops_photo]), and the geocoder
      failure reported with the message of a failed EXIF read
      ([geocode_error_reported_as_exif_error]).

    ** Modelling choices and bounds
    Python floats are exact rationals [Q]: the theorems are about the
    values the float code approximates, and rounding is [round]'s
    half-to-even rule on the exact value.  A [str] is a [list ascii] (the
    UTF-8 bytes of the text); splitting on the ASCII ", " gives the same
    pieces on bytes and on code points, since ASCII bytes never occur
    inside a multi-byte sequence.  The only fuel is that of [split_list],
    [length s + 1], enough since every cut shortens the rest
    ([split_fuel_enough]).  Every other definition is structural.

    ** Not modelled
    Lines 1-27 of main.py are comments and imports; lines 36-38 are blank.
    The EXIF binary parser, the Nominatim network protocol, the HTML map
    rendering and the browser are external: they are interfaces
    ([FileSystem], [Geocoder]) or events ([SaveMap], [ShowMap]).  The
    pandas dataframe is its four columns; its printed layout is pandas'
    formatting, which is not in the repository.  The text of the print
    statements other than line 80 is not modelled: those events carry
    the printed values.  Their text needs [str] of arbitrary floats (the
    GPS tuples of lines 76-77), and that depends on binary64 rounding.
    [str] of a rounded coordinate is determined only below [10^9] in
    magnitude (fewer than 16 significant digits); beyond, [float6_text]
    gives [None].  Exact rationals have no negative zero, so a coordinate
    in [(-5e-7, 0)] prints as [0.0] in the model and as [-0.0] in
    CPython.
    The binary64 rounding of [decimal_coords] is not modelled either:
    Stdlib's [SpecFloat] computes it, but no installed library proves
    error bounds for it against the exact value (Flocq is not
    available).  The theorems therefore speak of the exact values the
    floats approximate, which [round(_, 6)] makes agree except when an
    exact value lies within a few units of binary64 precision of a
    rounding boundary. *)

From Stdlib Require Import List Lia.
From stdpp Require Import base list relations.

(** ** Python exceptions and results *)

(** The exceptions the program can raise; the bare [except:] clauses
    of main.py catch all of them. *)
Inductive exn : Type :=
| AttributeError
| IndexError
| TypeError
| ValueError
| OSError
| GeocoderError
| ZeroDivisionError
| AssertionError.

#[export] Instance exn_eq_dec : EqDecision exn.
Proof. solve_decision. Defined.

(** The outcome of a Python computation: an exception or a value. *)
Inductive pyres (A : Type) : Type :=
| PyRaise (e : exn)
| PyOk (a : A).
Arguments PyRaise {A} e.
Arguments PyOk {A} a.

(** ** The state-and-exception monad of Python statements *)

(** A statement sequence runs on a state [S]; when it raises, the state
    changes made before the exception are kept (Python has no rollback). *)
Definition PyM (S A : Type) : Type := S -> pyres A * S.

Definition pret {S A} (a : A) : PyM S A := fun s => (PyOk a, s).

Definition pbind {S A B} (m : PyM S A) (k : A -> PyM S B) : PyM S B :=
  fun s =>
    match m s with
    | (PyRaise e, s') => (PyRaise e, s')
    | (PyOk a, s') => k a s'
    end.

Definition praise {S A} (e : exn) : PyM S A := fun s => (PyRaise e, s).

Definition pmodify {S} (f : S -> S) : PyM S unit := fun s => (PyOk tt, f s).

Definition pgets {S A} (f : S -> A) : PyM S A := fun s => (PyOk (f s), s).

(** An operation that yields [None] raises [e] (an absent attribute, an
    index out of range). *)
Definition of_option {S A} (e : exn) (o : option A) : PyM S A :=
  match o with Some a => pret a | None => praise e end.

(** A pure computation that may raise, run as a statement. *)
Definition lift_res {S A} (r : pyres A) : PyM S A :=
  match r with PyRaise e => praise e | PyOk a => pret a end.

(** Run statements on a local object (a map built by [main]) and return
    the object they leave, or their exception. *)
Definition exec_on {S} (m : PyM S unit) (s : S) : pyres S :=
  match m s with (PyRaise e, _) => PyRaise e | (PyOk _, s') => PyOk s' end.

(** [try: m except: h]: a bare [except:] catches every exception and runs
    the handler on the state reached when it was raised. *)
Definition try_except {S A} (m : PyM S A) (h : exn -> PyM S A) : PyM S A :=
  fun s =>
    match m s with
    | (PyRaise e, s') => h e s'
    | r => r
    end.

(** [for x in xs: body]. *)
Fixpoint py_for {S A} (body : A -> PyM S unit) (xs : list A) : PyM S unit :=
  match xs with
  | [] => pret tt
  | x :: xs' => pbind (body x) (fun _ => py_for body xs')
  end.

Declare Scope py_scope.
Delimit Scope py_scope with py.
Notation "x <- m ;; k" := (pbind m (fun x => k))
  (at level 100, m at next level, k at level 200, right associativity) : py_scope.
Notation "m ;; k" := (pbind m (fun _ => k))
  (at level 100, k at level 200, right associativity) : py_scope.

(** ** Monad laws, stated on a run from a state *)

Lemma pbind_pret {S A B} (a : A) (k : A -> PyM S B) (s : S) :
  pbind (pret a) k s = k a s.
Proof. reflexivity. Qed.

Lemma pbind_pret_r {S A} (m : PyM S A) (s : S) : pbind m pret s = m s.
Proof. unfold pbind, pret. by destruct (m s) as [[] ?]. Qed.

Lemma pbind_assoc {S A B C} (m : PyM S A) (k : A -> PyM S B) (k' : B -> PyM S C) (s : S) :
  pbind (pbind m k) k' s = pbind m (fun a => pbind (k a) k') s.
Proof. unfold pbind. by destruct (m s) as [[] ?]. Qed.

Lemma pbind_praise {S A B} (e : exn) (k : A -> PyM S B) (s : S) :
  pbind (praise e) k s = (PyRaise e, s).
Proof. reflexivity. Qed.

(** Running a sequence whose first statement is known. *)
Lemma pbind_ok {S A B} (m : PyM S A) (k : A -> PyM S B) (s s' : S) (a : A) :
  m s = (PyOk a, s') -> pbind m k s = k a s'.
Proof. intros H. unfold pbind. by rewrite H. Qed.

Lemma pbind_raise {S A B} (m : PyM S A) (k : A -> PyM S B) (s s' : S) (e : exn) :
  m s = (PyRaise e, s') -> pbind m k s = (PyRaise e, s').
Proof. intros H. unfold pbind. by rewrite H. Qed.

(** A handler that never raises makes [try_except] total. *)
Lemma try_except_ok {S A} (m : PyM S A) (h : exn -> PyM S A) (s : S) :
  (forall e s0, exists a s1, h e s0 = (PyOk a, s1)) ->
  exists a s', try_except m h s = (PyOk a, s').
Proof.
  intros Hh. unfold try_except.
  destruct (m s) as [[e|a] s'] eqn:E; [apply Hh|eauto].
Qed.

(** The loop over a concatenation is the two loops in sequence. *)
Lemma py_for_app {S A} (body : A -> PyM S unit) (xs ys : list A) (s : S) :
  py_for body (xs ++ ys) s = pbind (py_for body xs) (fun _ => py_for body ys) s.
Proof.
  revert s. induction xs as [|x xs IH]; intros s; simpl; [reflexivity|].
  rewrite pbind_assoc. unfold pbind at 1 2.
  destruct (body x s) as [[e|[]] s']; [done|]. apply IH.
Qed.

(** A loop whose body only returns or raises [e], over a list holding an
    element on which the body raises [e], raises [e]. *)
Lemma py_for_raise {S A} (body : A -> PyM S unit) (e : exn) (xs : list A) (x : A) (s : S) :
  x ∈ xs -> (forall s0, fst (body x s0) = PyRaise e) ->
  (forall y s0, fst (body y s0) = PyOk tt \/ fst (body y s0) = PyRaise e) ->
  fst (py_for body xs s) = PyRaise e.
Proof.
  intros Hin Hx Hall. revert s. induction xs as [|y xs IH]; intros s;
    [by apply not_elem_of_nil in Hin|]. simpl. unfold pbind.
  apply elem_of_cons in Hin as [->|Hin].
  - specialize (Hx s). destruct (body y s) as [[e'|[]] s']; simpl in *; congruence.
  - destruct (body y s) as [[e'|[]] s'] eqn:E; simpl; [|by apply IH].
    destruct (Hall y s) as [H|H]; rewrite E in H; simpl in H; congruence.
Qed.

(** ** Shared list lemmas and automation *)

Create HintDb pymodel.
Create Rewrite HintDb pymodel.

Lemma length_snoc {A} (l : list A) (x : A) : length (l ++ [x]) = S (length l).
Proof. rewrite length_app. simpl. lia. Qed.

(** Counting the elements a boolean test accepts. *)
Lemma length_filter_cons {A} (b : A -> bool) (x : A) (l : list A) :
  length (filter (fun y => b y) (x :: l)) = (if b x then 1 else 0) + length (filter (fun y => b y) l).
Proof. rewrite filter_cons. case_decide as H; destruct (b x); simpl in *; first [done|contradiction]. Qed.

(** A property of configurations kept by every step is kept along any
    sequence of steps. *)
Lemma rtc_preserved {C} (R : relation C) (P : C -> Prop) :
  (forall c c', R c c' -> P c -> P c') -> forall c c', rtc R c c' -> P c -> P c'.
Proof. intros Hstep c c' Hr. induction Hr; eauto. Qed.

#[export] Hint Rewrite @length_snoc @length_app @length_map @length_filter_cons : pymodel.

(** Unfold the monad and split on the results of the collaborators. *)
Ltac py_simpl :=
  repeat (unfold pbind, pret, praise, pmodify, pgets, of_option, lift_res, try_except in *;
          simpl in *).
