(* ===== verification/PySeq.v ===== *)
(** * PySeq: the Python sequence and string built-ins used by main.py

    Indexing [coords[i]] (line 32), the slices [addrList[i][:-6]] and
    [addrList[i][-5:]] (lines 118-119), [' '.join(...)] (lines 118-119),
    the substring test ['S' in ref] (line 33) and [str.split(', ')]
    (line 85), each on a generic element type with decidable equality
    (a Python [str] is a sequence of characters, a [list] of anything).
    The definitions follow CPython: negative indices count from the end,
    slice bounds are clamped, [split] with an empty separator raises
    [ValueError] and otherwise cuts at the leftmost non-overlapping
    occurrences. *)

From Stdlib Require Import List Lia ZArith Ascii String.
From stdpp Require Import base list strings.
From S2P Require Import Prelude.

(** A Python [str] of the program: its characters as bytes. *)
Abbreviation str := (list ascii).

Section PyIndex.
Context {A : Type}.

(** ** Indexing and slicing *)

(** A negative index counts from the end ([i += len(l)]). *)
Definition py_norm_index (len : nat) (i : Z) : Z :=
  if (i <? 0)%Z then (i + Z.of_nat len)%Z else i.

(** [l[i]]: [None] is the [IndexError] of an index out of range. *)
Definition py_getitem (l : list A) (i : Z) : option A :=
  let j := py_norm_index (length l) i in
  if (j <? 0)%Z then None else l !! Z.to_nat j.

(** A slice bound after [PySlice_AdjustIndices] (step 1): normalised,
    then clamped to [0, len]; an omitted bound takes its default. *)
Definition py_slice_bound (len : nat) (i : option Z) (dflt : nat) : nat :=
  match i with
  | None => dflt
  | Some i => Z.to_nat (Z.min (py_norm_index len i) (Z.of_nat len))
  end.

(** [l[start:stop]]; an empty range ([stop <= start]) is the empty list,
    which the truncated subtraction of [nat] gives. *)
Definition py_slice (l : list A) (start stop : option Z) : list A :=
  let a := py_slice_bound (length l) start 0 in
  let b := py_slice_bound (length l) stop (length l) in
  take (b - a) (drop a l).

End PyIndex.

Section PyStr.
Context {A : Type} `{EqDecision A}.

(** ** Joining and searching *)

(** [sep.join(l)]. *)
Fixpoint py_join (sep : list A) (l : list (list A)) : list A :=
  match l with
  | [] => []
  | [x] => x
  | x :: l' => x ++ sep ++ py_join sep l'
  end.

Fixpoint is_prefix (p s : list A) : bool :=
  match p, s with
  | [], _ => true
  | x :: p', y :: s' => bool_decide (x = y) && is_prefix p' s'
  | _ :: _, [] => false
  end.

(** [needle in hay] for strings: a substring test. *)
Fixpoint py_contains (needle hay : list A) : bool :=
  is_prefix needle hay ||
  match hay with
  | [] => false
  | _ :: hay' => py_contains needle hay'
  end.

(** The leftmost occurrence of [sep] in [s]: the text before it and the
    text after it. *)
Fixpoint find_sep (sep s : list A) : option (list A * list A) :=
  if is_prefix sep s then Some ([], drop (length sep) s)
  else match s with
       | [] => None
       | c :: s' =>
           match find_sep sep s' with
           | Some (b, a) => Some (c :: b, a)
           | None => None
           end
       end.

(** The split loop: cut at the leftmost occurrence and go on after it.
    Each cut with a non-empty separator shortens the rest, so a fuel of
    [length s + 1] is never exhausted (lemma [split_fuel_enough]). *)
Fixpoint split_fuel (fuel : nat) (sep s : list A) : list (list A) :=
  match fuel with
  | O => [s]
  | S f =>
      match find_sep sep s with
      | Some (b, a) => b :: split_fuel f sep a
      | None => [s]
      end
  end.

Definition split_list (sep s : list A) : list (list A) :=
  split_fuel (S (length s)) sep s.

(** [s.split(sep)]: [ValueError: empty separator] when [sep] is empty. *)
Definition py_split (sep s : list A) : pyres (list (list A)) :=
  match sep with
  | [] => PyRaise ValueError
  | _ => PyOk (split_list sep s)
  end.

End PyStr.

(** ** Lemmas *)

Section PySeqLemmas.
Context {A : Type} `{EqDecision A}.
Implicit Types (sep s p b a : list A).

Lemma is_prefix_spec p s : is_prefix p s = true <-> exists r, s = p ++ r.
Proof.
  revert s. induction p as [|x p IH]; intros [|y s]; simpl.
  - split; eauto.
  - split; eauto.
  - split; [done|]. intros [r Hr]. done.
  - rewrite andb_true_iff, bool_decide_eq_true, IH. split.
    + intros [-> [r ->]]. eauto.
    + intros [r Hr]. simplify_eq. eauto.
Qed.

Lemma py_contains_spec p s :
  py_contains p s = true <-> exists x y, s = x ++ p ++ y.
Proof.
  induction s as [|c s IH]; simpl; rewrite orb_true_iff, is_prefix_spec.
  - split.
    + intros [[r Hr]|?]; [|done]. by exists [], r.
    + intros (x & y & Hxy). left. exists y.
      destruct x; [done|]. simpl in Hxy. done.
  - rewrite IH. split.
    + intros [[r Hr]|(x & y & ->)]; [exists [], r; done|exists (c :: x), y; done].
    + intros ([|c' x] & y & Hxy); simpl in Hxy; [left; eauto|].
      simplify_eq. right. eauto.
Qed.

(** ['S' in ref] on a one-character needle is membership. *)
Lemma py_contains_single (c : A) s : py_contains [c] s = bool_decide (c ∈ s).
Proof.
  apply Bool.eq_true_iff_eq. rewrite py_contains_spec, bool_decide_eq_true.
  split.
  - intros (x & y & ->). apply elem_of_app. right. by left.
  - intros Hin. apply list_elem_of_split in Hin as (x & y & ->). eauto.
Qed.

Lemma find_sep_app sep s b a : find_sep sep s = Some (b, a) -> s = b ++ sep ++ a.
Proof.
  revert b a. induction s as [|c s IH]; intros b a Hf; simpl in Hf.
  - destruct sep; simpl in Hf; simplify_eq; done.
  - destruct (is_prefix sep _) eqn:Hp.
    + injection Hf as <- <-. apply is_prefix_spec in Hp as [r Hr].
      rewrite Hr, drop_app_length. done.
    + destruct (find_sep sep s) as [[b' a']|] eqn:E; simplify_eq.
      simpl. f_equal. by apply IH.
Qed.

Lemma find_sep_shorter sep s b a :
  sep <> [] -> find_sep sep s = Some (b, a) -> length a < length s.
Proof.
  intros Hsep Hf. apply find_sep_app in Hf as ->.
  destruct sep; [done|]. rewrite !length_app. simpl. lia.
Qed.

(** The text before the leftmost occurrence holds no occurrence. *)
Lemma find_sep_first sep s b a :
  sep <> [] -> find_sep sep s = Some (b, a) -> py_contains sep b = false.
Proof.
  intros Hsep. revert b a. induction s as [|c s IH]; intros b a Hf; simpl in Hf.
  - destruct sep; simpl in Hf; simplify_eq; done.
  - destruct (is_prefix sep _) eqn:Hp.
    + injection Hf as <- <-. destruct sep; done.
    + destruct (find_sep sep s) as [[b' a']|] eqn:E; [injection Hf as <- <-|done].
      simpl. rewrite (IH b' a' eq_refl), orb_false_r.
      apply not_true_iff_false. intros Hb. apply is_prefix_spec in Hb as [r Hr].
      apply find_sep_app in E as ->.
      assert (is_prefix sep (c :: b' ++ sep ++ a') = true) as Hc; [|congruence].
      apply is_prefix_spec. exists (r ++ sep ++ a').
      change (c :: b' ++ sep ++ a') with ((c :: b') ++ sep ++ a').
      by rewrite Hr, <- app_assoc.
Qed.

Lemma find_sep_None sep s : find_sep sep s = None -> py_contains sep s = false.
Proof.
  induction s as [|c s IH]; intros Hf; simpl in *.
  - destruct (is_prefix sep []); done.
  - destruct (is_prefix sep _); [done|].
    destruct (find_sep sep s) as [[]|]; [done|]. rewrite IH; done.
Qed.

Lemma split_fuel_nonempty f sep s : split_fuel f sep s <> [].
Proof. destruct f; simpl; [done|]. by destruct (find_sep sep s) as [[]|]. Qed.

Lemma py_join_cons_ne sep x l : l <> [] -> py_join sep (x :: l) = x ++ sep ++ py_join sep l.
Proof. by destruct l. Qed.

(** Fuel beyond the length of the text does not change the result. *)
Lemma split_fuel_enough sep f1 f2 s :
  sep <> [] -> length s < f1 -> length s < f2 -> split_fuel f1 sep s = split_fuel f2 sep s.
Proof.
  intros Hsep. revert f2 s. induction f1 as [|f1 IH]; intros [|f2] s H1 H2; try lia.
  simpl. destruct (find_sep sep s) as [[b a]|] eqn:E; [|done].
  pose proof (find_sep_shorter _ _ _ _ Hsep E). f_equal. apply IH; lia.
Qed.

(** The defining equation of the split loop, free of fuel. *)
Lemma split_list_eq sep s :
  sep <> [] ->
  split_list sep s =
    match find_sep sep s with
    | Some (b, a) => b :: split_list sep a
    | None => [s]
    end.
Proof.
  intros Hsep. unfold split_list at 1. simpl.
  destruct (find_sep sep s) as [[b a]|] eqn:E; [|done].
  pose proof (find_sep_shorter _ _ _ _ Hsep E).
  f_equal. apply split_fuel_enough; [done|lia|lia].
Qed.

(** Induction along the split loop. *)
Lemma split_list_ind sep (P : list A -> list (list A) -> Prop) :
  sep <> [] ->
  (forall s, find_sep sep s = None -> P s [s]) ->
  (forall s b a, find_sep sep s = Some (b, a) -> P a (split_list sep a) ->
                 P s (b :: split_list sep a)) ->
  forall s, P s (split_list sep s).
Proof.
  intros Hsep Hnone Hsome s. remember (length s) as n eqn:Hn. revert s Hn.
  induction n as [n IH] using lt_wf_ind. intros s ->.
  rewrite split_list_eq by done.
  destruct (find_sep sep s) as [[b a]|] eqn:E; [|auto].
  apply Hsome; [done|]. apply IH with (length a); [|done].
  eapply find_sep_shorter; eauto.
Qed.

(** Every character of a substring occurs in the text. *)
Lemma py_contains_elem (needle hay : list A) (c : A) :
  py_contains needle hay = true -> c ∈ needle -> c ∈ hay.
Proof.
  rewrite py_contains_spec. intros (x & y & ->) Hc.
  apply elem_of_app. right. apply elem_of_app. by left.
Qed.

(** A character absent from the separator and from every piece is
    absent from the joined text. *)
Lemma py_join_not_elem (c : A) (sep : list A) (l : list (list A)) :
  c ∉ sep -> Forall (fun w => c ∉ w) l -> c ∉ py_join sep l.
Proof.
  intros Hsep Hl. induction Hl as [|w l Hw Hl IH]; [apply not_elem_of_nil|].
  destruct l as [|w' l]; [done|]. simpl. rewrite !elem_of_app.
  intros [H|[H|H]]; [exact (Hw H)|exact (Hsep H)|exact (IH H)].
Qed.
(** The text of a successful search contains the separator. *)
Lemma find_sep_Some_contains sep s b a :
  find_sep sep s = Some (b, a) -> py_contains sep s = true.
Proof.
  intros Hf. apply find_sep_app in Hf as ->. apply py_contains_spec. eauto.
Qed.

(** Every piece of the split loop is free of the separator. *)
Lemma split_list_pieces sep s :
  sep <> [] -> Forall (fun p => py_contains sep p = false) (split_list sep s).
Proof.
  intros Hsep.
  apply (split_list_ind sep (fun s ps => Forall _ ps)); [done| |].
  - intros s' E. constructor; [by apply find_sep_None|constructor].
  - intros s' b a E IH. constructor; [|done]. by eapply find_sep_first.
Qed.

(** Joining the pieces of the split loop gives back the text. *)
Lemma split_list_join sep s : sep <> [] -> py_join sep (split_list sep s) = s.
Proof.
  intros Hsep. apply (split_list_ind sep (fun s ps => py_join sep ps = s)); [done|done|].
  intros s' b a E IH. rewrite py_join_cons_ne by apply split_fuel_nonempty.
  rewrite IH. symmetry. by apply find_sep_app.
Qed.

(** A separator whose first character does not recur in it cannot
    straddle the end of a piece: placed after a piece free of it, the
    leftmost occurrence is the one placed. *)
Lemma find_sep_join (c : A) (sep' p r : list A) :
  c ∉ sep' -> py_contains (c :: sep') p = false ->
  find_sep (c :: sep') (p ++ (c :: sep') ++ r) = Some (p, r).
Proof.
  intros Hc. induction p as [|x p IH]; intros Hp.
  - simpl. rewrite bool_decide_true by done.
    rewrite (proj2 (is_prefix_spec sep' (sep' ++ r))) by eauto.
    simpl. by rewrite drop_app_length.
  - cbn [py_contains] in Hp. apply orb_false_iff in Hp as [Hx Hp].
    specialize (IH Hp). cbn [app find_sep] in *. rewrite IH.
    destruct (is_prefix (c :: sep') (x :: p ++ c :: sep' ++ r)) eqn:Hs; [|done].
    exfalso. apply is_prefix_spec in Hs as [t Ht].
    change (x :: p ++ c :: sep' ++ r) with ((x :: p) ++ (c :: sep') ++ r) in Ht.
    apply app_eq_app in Ht as [l [[Hl _]|[Hl Ht]]].
    + rewrite Hl in Hx. rewrite (proj2 (is_prefix_spec _ _)) in Hx; [done|eauto].
    + destruct l as [|y l].
      * rewrite app_nil_r in Hl. rewrite <- Hl in Hx.
        rewrite (proj2 (is_prefix_spec _ _)) in Hx; [done|]. exists []. by rewrite app_nil_r.
      * simpl in Hl, Ht. simplify_eq. apply Hc. apply elem_of_app. right. by left.
Qed.
(** Splitting the join of pieces free of such a separator gives back
    the pieces. *)
Lemma split_list_of_join (c : A) (sep' : list A) (ps : list (list A)) :
  c ∉ sep' -> ps <> [] -> Forall (fun p => py_contains (c :: sep') p = false) ps ->
  split_list (c :: sep') (py_join (c :: sep') ps) = ps.
Proof.
  intros Hc Hne Hps. induction Hps as [|p ps Hp Hps IH]; [done|].
  destruct ps as [|q ps].
  - rewrite split_list_eq by done. simpl.
    destruct (find_sep _ p) as [[b a]|] eqn:E; [|done].
    apply find_sep_Some_contains in E. congruence.
  - rewrite py_join_cons_ne, split_list_eq by done.
    rewrite find_sep_join by done. by rewrite IH.
Qed.
End PySeqLemmas.

#[export] Hint Resolve split_fuel_nonempty : pymodel.

Section PySeqTheorems.
Context {A : Type} `{EqDecision A}.

(** A slice with a negative stop [l[:-k]] drops the last [k] elements. *)
Lemma py_slice_neg_stop (l : list A) (k : nat) :
  k <> 0 -> py_slice l None (Some (- Z.of_nat k)%Z) = take (length l - k) l.
Proof.
  intros Hk. unfold py_slice, py_slice_bound, py_norm_index.
  rewrite drop_0. f_equal. destruct (Z.ltb_spec (- Z.of_nat k) 0); lia.
Qed.

(** A slice with a negative start [l[-k:]] keeps the last [k] elements
    (the whole list when it is shorter). *)
Lemma py_slice_neg_start (l : list A) (k : nat) :
  k <> 0 -> py_slice l (Some (- Z.of_nat k)%Z) None = drop (length l - k) l.
Proof.
  intros Hk. unfold py_slice, py_slice_bound, py_norm_index.
  destruct (Z.ltb_spec (- Z.of_nat k) 0) as [_|]; [|lia].
  replace (Z.to_nat (Z.min (- Z.of_nat k + Z.of_nat (length l)) (Z.of_nat (length l))))
    with (length l - k) by lia.
  rewrite take_ge; [done|]. rewrite length_drop. lia.
Qed.

(** Indexing with a non-negative index is list lookup. *)
Lemma py_getitem_nat (l : list A) (i : nat) : py_getitem l (Z.of_nat i) = l !! i.
Proof.
  unfold py_getitem, py_norm_index.
  destruct (Z.ltb_spec (Z.of_nat i) 0); [lia|]. simpl.
  destruct (Z.ltb_spec (Z.of_nat i) 0); [lia|]. by rewrite Nat2Z.id.
Qed.

(** [str.split] never fails on a non-empty separator. *)
Lemma py_split_ok (sep s : list A) : sep <> [] -> py_split sep s = PyOk (split_list sep s).
Proof. by destruct sep. Qed.

(** C17. Round trip: joining the pieces of [s.split(sep)] with [sep]
    gives back [s]; no text is lost or reordered by the split. *)
Theorem py_split_join (sep s : list A) (ps : list (list A)) :
  py_split sep s = PyOk ps -> py_join sep ps = s.
Proof.
  destruct sep as [|c sep']; [done|]. intros [= <-]. by apply split_list_join.
Qed.

(** C18. No piece of [s.split(sep)] contains the separator: the split
    cuts at every occurrence. *)
Theorem py_split_pieces (sep s : list A) (ps : list (list A)) :
  py_split sep s = PyOk ps -> Forall (fun p => py_contains sep p = false) ps.
Proof.
  destruct sep as [|c sep']; [done|]. intros [= <-]. by apply split_list_pieces.
Qed.

(** C15. Characterisation of [str.split]: for a separator whose first
    character does not recur in it, [s.split(sep)] is [ps] exactly when
    [ps] is a non-empty list of pieces free of the separator whose join
    is [s]; the split is the only such decomposition of the text. *)
Theorem py_split_spec (c : A) (sep' s : list A) (ps : list (list A)) :
  c ∉ sep' ->
  py_split (c :: sep') s = PyOk ps <->
  ps <> [] /\ py_join (c :: sep') ps = s /\
  Forall (fun p => py_contains (c :: sep') p = false) ps.
Proof.
  intros Hc. cbn [py_split]. split.
  - intros [= <-]. split; [apply split_fuel_nonempty|].
    split; [by apply split_list_join|by apply split_list_pieces].
  - intros (Hne & <- & Hps). f_equal. by apply split_list_of_join.
Qed.

End PySeqTheorems.

(** ** Witnesses on the address of the Eiffel tower (spec, section 8) *)

Definition eiffel_address : list ascii :=
  list_ascii_of_string "Tour Eiffel, Avenue Anatole France, Paris, Ile-de-France, 75007, France".

Definition eiffel_components : list (list ascii) :=
  map list_ascii_of_string
    ["Tour Eiffel"; "Avenue Anatole France"; "Paris"; "Ile-de-France"; "75007"; "France"]%string.

Lemma py_split_join_witness :
  py_join (list_ascii_of_string ", ") eiffel_components = eiffel_address.
Proof. apply (py_split_join _ eiffel_address). vm_compute. reflexivity. Defined.

Lemma py_split_pieces_witness :
  Forall (fun p => py_contains (list_ascii_of_string ", ") p = false) eiffel_components.
Proof. apply (py_split_pieces _ eiffel_address). vm_compute. reflexivity. Defined.

Lemma py_split_spec_witness :
  py_split (list_ascii_of_string ", ") eiffel_address = PyOk eiffel_components.
Proof.
  apply py_split_spec; [apply (bool_decide_unpack _); vm_compute; reflexivity|].
  split; [discriminate|]. split; [vm_compute; reflexivity|]. vm_compute. repeat constructor.
Defined.

