(* ===== verification/Coords.v ===== *)
(** * Coords: the coordinate converter and the rounding of main.py

    [decimal_coords] translates lines 31-35 of src/main.py: a
    [deg, min, sec] tuple and a hemisphere reference string become signed
    decimal degrees.  [py_round] is Python's [round(x, n)] on the exact value
    of [x]: the nearest multiple of [10^-n], ties to the even neighbour;
    main.py applies it with [n = 6] to both coordinates (lines 78-79).
    Floats are modelled by [Q]; the theorems are about the exact values. *)

From Stdlib Require Import List ZArith QArith Qround Qabs Lqa Ascii.
From stdpp Require Import base list strings.
From S2P Require Import Prelude PySeq.

Local Open Scope Q_scope.

(** ** decimal_coords (main.py lines 31-35) *)

(** [dec = coords[0] + 1 / 60 * coords[1] + 1 / 3600 * coords[2]];
    [if 'S' in ref or 'W' in ref: dec *= -1]; [return float(dec)].
    Indexing a tuple shorter than three raises [IndexError]. *)
Definition decimal_coords (coords : list Q) (ref : str) : pyres Q :=
  match py_getitem coords 0%Z, py_getitem coords 1%Z, py_getitem coords 2%Z with
  | Some c0, Some c1, Some c2 =>
      let dec := c0 + 1 / 60 * c1 + 1 / 3600 * c2 in
      let dec := if py_contains ["S"%char] ref || py_contains ["W"%char] ref
                 then dec * (-1) else dec in
      PyOk dec
  | _, _, _ => PyRaise IndexError
  end.

(** ** round(x, n) *)

(** The integer nearest to [q], ties to the even one. *)
Definition round_half_even (q : Q) : Z :=
  let f := Qfloor q in
  match Qcompare (q - inject_Z f) (1 # 2) with
  | Lt => f
  | Gt => (f + 1)%Z
  | Eq => if Z.even f then f else (f + 1)%Z
  end.

(** [round(x, ndigits)] for [ndigits >= 0]: CPython rounds the exact
    value of the float to [ndigits] decimals, half to even. *)
Definition py_round (x : Q) (ndigits : nat) : Q :=
  let p := (10 ^ Z.of_nat ndigits)%Z in
  round_half_even (x * inject_Z p) # Z.to_pos p.

(** The nearest-even relation that [round_half_even] decides. *)
Definition nearest_even (q : Q) (z : Z) : Prop :=
  Qabs (q - inject_Z z) < 1 # 2 \/
  (Qabs (q - inject_Z z) == 1 # 2 /\ Z.even z = true).

(** ** Rounding lemmas *)

Lemma inject_Z_succ (z : Z) : inject_Z (z + 1) == inject_Z z + 1.
Proof. by rewrite inject_Z_plus. Qed.

Lemma Qfloor_bounds (q : Q) : inject_Z (Qfloor q) <= q /\ q < inject_Z (Qfloor q) + 1.
Proof. split; [apply Qfloor_le|]. rewrite <- inject_Z_succ. apply Qlt_floor. Qed.

(** [round_half_even] picks a nearest integer, the even one on a tie. *)
Lemma round_half_even_spec (q : Q) : nearest_even q (round_half_even q).
Proof.
  unfold round_half_even, nearest_even. destruct (Qfloor_bounds q) as [Hlo Hhi].
  set (f := Qfloor q) in *.
  destruct (Qcompare (q - inject_Z f) (1 # 2)) eqn:Hc.
  - apply Qeq_alt in Hc. right.
    destruct (Z.even f) eqn:He.
    + split; [rewrite Qabs_pos; lra|done].
    + rewrite inject_Z_succ. split; [rewrite Qabs_neg; lra|].
      rewrite Z.add_1_r, Z.even_succ, <- Z.negb_even, He. done.
  - apply Qlt_alt in Hc. left. apply Qabs_Qlt_condition. lra.
  - apply Qgt_alt in Hc. left. rewrite inject_Z_succ. apply Qabs_Qlt_condition. lra.
Qed.

Lemma nearest_even_bounds (q : Q) (z : Z) :
  nearest_even q z -> - (1 # 2) <= q - inject_Z z <= 1 # 2.
Proof.
  intros [H|[H _]]; apply Qabs_Qle_condition; [apply Qlt_le_weak, H|rewrite H; apply Qle_refl].
Qed.

Lemma nearest_even_not_lt (q : Q) (z1 z2 : Z) :
  nearest_even q z1 -> nearest_even q z2 -> ~ (z1 < z2)%Z.
Proof.
  intros H1 H2 Hlt.
  assert (inject_Z z1 + 1 <= inject_Z z2) as Hq.
  { rewrite <- inject_Z_succ, <- Zle_Qle. lia. }
  pose proof (nearest_even_bounds _ _ H1). pose proof (nearest_even_bounds _ _ H2).
  destruct H1 as [H1|[H1 E1]]; [apply Qabs_Qlt_condition in H1; lra|].
  destruct H2 as [H2|[H2 E2]]; [apply Qabs_Qlt_condition in H2; lra|].
  assert (inject_Z z2 <= inject_Z (z1 + 1)) as Hle by (rewrite inject_Z_succ; lra).
  rewrite <- Zle_Qle in Hle. assert (z2 = z1 + 1)%Z as -> by lia.
  rewrite Z.add_1_r, Z.even_succ, <- Z.negb_even, E1 in E2. done.
Qed.

(** At most one integer is the nearest-even one. *)
Lemma nearest_even_unique (q : Q) (z1 z2 : Z) :
  nearest_even q z1 -> nearest_even q z2 -> z1 = z2.
Proof.
  intros H1 H2. pose proof (nearest_even_not_lt _ _ _ H1 H2).
  pose proof (nearest_even_not_lt _ _ _ H2 H1). lia.
Qed.

Lemma round_half_even_eq (q : Q) (z : Z) : nearest_even q z -> round_half_even q = z.
Proof. intros H. eapply nearest_even_unique; [apply round_half_even_spec|exact H]. Qed.

#[export] Instance nearest_even_proper : Proper (Qeq ==> eq ==> iff) nearest_even.
Proof. intros q1 q2 Hq z ? <-. unfold nearest_even. by rewrite Hq. Qed.

(** Rounding depends on the value, not on the representation. *)
#[export] Instance round_half_even_proper : Proper (Qeq ==> eq) round_half_even.
Proof.
  intros q1 q2 Hq. apply round_half_even_eq. rewrite Hq. apply round_half_even_spec.
Qed.

Lemma round_half_even_opp (q : Q) : round_half_even (- q) = (- round_half_even q)%Z.
Proof.
  apply round_half_even_eq. set (z := round_half_even q).
  assert (Qabs (- q - inject_Z (- z)) == Qabs (q - inject_Z z)) as Habs.
  { rewrite inject_Z_opp, <- Qabs_opp. apply Qabs_wd. ring. }
  unfold nearest_even. rewrite Habs, Z.even_opp. apply round_half_even_spec.
Qed.

Lemma round_half_even_Z (z : Z) : round_half_even (inject_Z z) = z.
Proof.
  apply round_half_even_eq. left. apply Qabs_Qlt_condition. lra.
Qed.

(** ** round(x, n) *)

Lemma pow10_pos (n : nat) : (0 < 10 ^ Z.of_nat n)%Z.
Proof. apply Z.pow_pos_nonneg; lia. Qed.

Lemma py_round_div (x : Q) (n : nat) :
  py_round x n == inject_Z (round_half_even (x * inject_Z (10 ^ Z.of_nat n)))
                  / inject_Z (10 ^ Z.of_nat n).
Proof.
  unfold py_round. rewrite Qmake_Qdiv. rewrite Z2Pos.id by apply pow10_pos. done.
Qed.

#[export] Instance py_round_proper : Proper (Qeq ==> eq ==> eq) py_round.
Proof. intros x y Hxy n ? <-. unfold py_round. by rewrite Hxy. Qed.

(** Rounding commutes with negation: [round(-x, n) == -round(x, n)]
    holds exactly, representation included. *)
Lemma py_round_opp (x : Q) (n : nat) : py_round (- x) n = - py_round x n.
Proof.
  unfold py_round. set (p := inject_Z (10 ^ Z.of_nat n)).
  assert (- x * p == - (x * p)) as -> by ring.
  rewrite round_half_even_opp. done.
Qed.

(** C28. The rounding error of [round(x, n)] is at most half a unit of
    the [n]-th decimal: [|round(x, n) - x| * 10^n <= 1/2]. *)
Lemma py_round_error (x : Q) (n : nat) :
  Qabs (py_round x n - x) * inject_Z (10 ^ Z.of_nat n) <= 1 # 2.
Proof.
  set (p := inject_Z (10 ^ Z.of_nat n)).
  assert (0 < p) as Hp.
  { unfold p. change 0 with (inject_Z 0). rewrite <- Zlt_Qlt. apply pow10_pos. }
  pose proof (nearest_even_bounds _ _ (round_half_even_spec (x * p))) as Hb.
  rewrite <- (Qabs_pos p) by lra. rewrite <- Qabs_Qmult, py_round_div. fold p.
  assert ((inject_Z (round_half_even (x * p)) / p - x) * p ==
          - (x * p - inject_Z (round_half_even (x * p)))) as -> by (field; lra).
  rewrite Qabs_opp. apply Qabs_Qle_condition. done.
Qed.

(** Rounding an already rounded value changes nothing:
    [round(round(x, n), n) = round(x, n)]. *)
Lemma py_round_idem (x : Q) (n : nat) : py_round (py_round x n) n = py_round x n.
Proof.
  set (P := (10 ^ Z.of_nat n)%Z).
  assert (py_round x n * inject_Z P == inject_Z (round_half_even (x * inject_Z P))) as H.
  { unfold py_round. fold P. rewrite Qmult_inject_Z_r.
    rewrite <- (Z2Pos.id P) at 2 by apply pow10_pos. apply Qreduce_den_inject_Z_r. }
  unfold py_round at 1. fold P. rewrite H, round_half_even_Z. done.
Qed.

(** ** decimal_coords *)

Lemma decimal_coords_cons (d m s : Q) (rest : list Q) (ref : str) :
  decimal_coords (d :: m :: s :: rest) ref =
  PyOk (if bool_decide ("S"%char ∈ ref) || bool_decide ("W"%char ∈ ref)
        then (d + 1 / 60 * m + 1 / 3600 * s) * (-1)
        else d + 1 / 60 * m + 1 / 3600 * s).
Proof. unfold decimal_coords. cbn. by rewrite !py_contains_single. Qed.

(** C9. The conversion of a [deg, min, sec] tuple is
    [±(deg + min/60 + sec/3600)], negative exactly when the reference
    contains 'S' or 'W'; it never fails on a tuple of three or more. *)
Theorem decimal_coords_value (d m s : Q) (rest : list Q) (ref : str) :
  exists v, decimal_coords (d :: m :: s :: rest) ref = PyOk v /\
    v == (if bool_decide ("S"%char ∈ ref \/ "W"%char ∈ ref) then -1 else 1)
         * (d + m / 60 + s / 3600).
Proof.
  rewrite decimal_coords_cons. eexists. split; [reflexivity|].
  destruct (bool_decide_reflect ("S"%char ∈ ref)), (bool_decide_reflect ("W"%char ∈ ref));
    simpl; rewrite ?bool_decide_true, ?bool_decide_false by tauto; field.
Qed.

(** C25. A tuple with fewer than three entries makes [coords[i]] raise
    [IndexError]. *)
Theorem decimal_coords_short (coords : list Q) (ref : str) :
  (length coords < 3)%nat -> decimal_coords coords ref = PyRaise IndexError.
Proof.
  intros H. destruct coords as [|d [|m [|s rest]]]; simpl in H; try lia; reflexivity.
Qed.

Lemma decimal_coords_short_witness :
  (length [1; 2] < 3)%nat /\ decimal_coords [1; 2] ["N"%char] = PyRaise IndexError.
Proof. split; [simpl; lia|]. apply decimal_coords_short. simpl. lia. Defined.

Lemma decimal_coords_north (d m s : Q) (rest : list Q) (ref : str) :
  "S"%char ∉ ref -> "W"%char ∉ ref ->
  decimal_coords (d :: m :: s :: rest) ref = PyOk (d + 1 / 60 * m + 1 / 3600 * s).
Proof.
  intros HS HW. rewrite decimal_coords_cons, !bool_decide_false by done. done.
Qed.

Lemma decimal_coords_south (d m s : Q) (rest : list Q) (ref : str) :
  "S"%char ∈ ref \/ "W"%char ∈ ref ->
  decimal_coords (d :: m :: s :: rest) ref = PyOk ((d + 1 / 60 * m + 1 / 3600 * s) * (-1)).
Proof.
  intros H. rewrite decimal_coords_cons.
  destruct H as [H|H]; rewrite (bool_decide_true _ H); [done|]. by rewrite orb_true_r.
Qed.

(** C10. After [round(_, 6)], a southern (or western) coordinate is exactly
    the negation of the northern (or eastern) one with the same tuple. *)
Theorem rounded_hemisphere_symmetry (coords : list Q) (refN refS : str) (vN vS : Q) :
  "S"%char ∉ refN -> "W"%char ∉ refN -> ("S"%char ∈ refS \/ "W"%char ∈ refS) ->
  decimal_coords coords refN = PyOk vN -> decimal_coords coords refS = PyOk vS ->
  py_round vS 6 = - py_round vN 6.
Proof.
  intros HS HW HSW EN ES.
  destruct coords as [|d [|m [|s rest]]]; try (rewrite decimal_coords_short in EN; [discriminate|simpl; lia]).
  rewrite decimal_coords_north in EN by done. rewrite decimal_coords_south in ES by done.
  injection EN as <-. injection ES as <-.
  rewrite <- py_round_opp. apply py_round_proper; [ring|done].
Qed.

Lemma rounded_hemisphere_symmetry_witness :
  py_round ((40 + 1 / 60 * 26 + 1 / 3600 * 46) * (-1)) 6 =
  - py_round (40 + 1 / 60 * 26 + 1 / 3600 * 46) 6.
Proof.
  apply (rounded_hemisphere_symmetry [40; 26; 46] ["N"%char] ["S"%char]);
    try (apply (bool_decide_unpack _); vm_compute; exact I); reflexivity.
Defined.

(** C26. For a well-formed tuple (whole minutes at most 59, seconds below
    60, as EXIF GPS tags carry them) the
    magnitude of the result lies in [[deg, deg + 1)]: a latitude with
    [deg <= 89] stays within (-90, 90), a longitude with [deg <= 179]
    within (-180, 180). *)
Theorem decimal_coords_bounds (d m s : Q) (rest : list Q) (ref : str) (v : Q) :
  0 <= d -> 0 <= m <= 59 -> 0 <= s < 60 ->
  decimal_coords (d :: m :: s :: rest) ref = PyOk v ->
  d <= Qabs v < d + 1.
Proof.
  intros Hd Hm Hs E.
  assert (0 <= d + 1 / 60 * m + 1 / 3600 * s /\ d <= d + 1 / 60 * m + 1 / 3600 * s < d + 1)
    as [H0 H1].
  { assert (d + 1 / 60 * m + 1 / 3600 * s == d + (1 # 60) * m + (1 # 3600) * s) as ->
      by field. lra. }
  destruct (decide ("S"%char ∈ ref \/ "W"%char ∈ ref)) as [HSW|HSW].
  - rewrite decimal_coords_south in E by done. injection E as <-.
    rewrite Qabs_Qmult, (Qabs_pos (_ + _)) by done. change (Qabs (-1)) with 1.
    rewrite Qmult_1_r. done.
  - rewrite decimal_coords_north in E by tauto. injection E as <-.
    rewrite Qabs_pos by done. done.
Qed.

Lemma decimal_coords_bounds_witness :
  40 <= Qabs (40 + 1 / 60 * 26 + 1 / 3600 * 46) < 40 + 1.
Proof.
  apply (decimal_coords_bounds 40 26 46 [] ["N"%char]);
    repeat split; vm_compute; try discriminate; reflexivity.
Defined.
