(* ===== verification/Collab.v ===== *)
(** * Collab: the collaborators main.py calls, as interfaces

    - [FileSystem]: [os.listdir(folderName)] (line 50) and the sequence
      [src = open(filename, 'rb'); img = Image(src); src.close()]
      (lines 64-66), whose outcome is an [open_result]: [open] raised, or
      [Image] raised after the file was opened (the handle is then never
      closed), or the parsed [exif.Image].
    - [exif_image]: the attributes of [exif.Image] that main.py reads
      (lines 73-79); an absent tag is [None], and reading it raises
      [AttributeError].
    - [Geocoder]: [Nominatim(user_agent=...).reverse([lat, long],
      language=...)] (line 83).  The service is stateful (quotas, network
      state), so [reverse] threads a state of its own; it raises, answers
      [None], or answers a location whose [.address] is a string.
    - [event]: what the program prints and the file-handle operations it
      performs, in order: the observable trace of a run.
    The development's theorems hold for every instance of these classes. *)

From Stdlib Require Import List ZArith QArith Ascii String.
From stdpp Require Import base list strings.
From S2P Require Import Prelude PySeq.

(** The attributes of [exif.Image] used by main.py. *)
Record exif_image : Type := mk_exif_image {
  has_exif : bool;
  pixel_x_dimension : option Z;
  pixel_y_dimension : option Z;
  gps_latitude : option (list Q);
  gps_latitude_ref : option str;
  gps_longitude : option (list Q);
  gps_longitude_ref : option str
}.

(** The outcome of lines 64-66. *)
Inductive open_result : Type :=
| OpenFailed (e : exn)             (** [open(filename, 'rb')] raised *)
| ImageFailed (e : exn)            (** [Image(src)] raised; [src] stays open *)
| Opened (img : exif_image).       (** both succeeded and [src.close()] ran *)

Class FileSystem : Type := {
  listdir : str -> option (list str);      (** [None]: [os.listdir] raised *)
  open_image : str -> open_result
}.

(** The answer of [Nominatim.reverse]. *)
Inductive geo_result : Type :=
| GeoRaised (e : exn)
| GeoNone
| GeoFound (address : str).

Class Geocoder : Type := {
  geo_state : Type;
  reverse : geo_state -> str -> Q -> Q -> str -> geo_result * geo_state
}.

(** Observable events of a run: printed lines and file-handle operations. *)
Inductive event : Type :=
| EvOpen (path : str)                        (** a handle on [path] was opened *)
| EvClose (path : str)                       (** [src.close()] *)
| OutCouldNotOpen (path : str)               (** [print('Could not open', filename)] *)
| OutOpening (path : str)                    (** [print('Opening', src.name, '...')] *)
| OutDims (x y : Z)                          (** [print('x,y dimensions:', ...)] *)
| OutGpsLongitude (coords : list Q) (ref : str)
| OutGpsLatitude (coords : list Q) (ref : str)
| OutLatLong (lat long : Q)                  (** [print('lat, long:', ...)] *)
| EvReverse (lat long : Q)                   (** the request to the geocoder *)
| OutAddress (addr : option str)             (** [print('address:', addr)] *)
| OutBlank                                   (** [print()] *)
| OutNoExif (path : str)                     (** [print(src.name, 'has no EXIF info!')] *)
| OutException (path : str).                 (** [print('An exception occurred ...')] *)
