(* ===== verification/Batch.v ===== *)
(** * Batch: the loop of main over the folder (src/main.py lines 49-101)

    The loop state [batch_state] holds the five lists main.py fills
    ([fileFullnameList], [fileList], [latList], [longList], [addrList],
    lines 53-57), the trace of printed lines and file-handle events, and the
    state of the geocoding service.  [process_file] is one iteration of
    [for f in folderFileList] (lines 60-101) written statement by
    statement in the [PyM] monad; [collect] is the loop.  The section
    variables are the collaborators of [Collab]. *)

From Stdlib Require Import List ZArith QArith Ascii String.
From stdpp Require Import base list strings relations.
From S2P Require Import Prelude PySeq Coords Collab.

Local Open Scope py_scope.

Section Batch.
Context `{FS : FileSystem} `{GC : Geocoder}.

Record batch_state : Type := mk_batch_state {
  trace : list event;
  geo : geo_state;
  fileFullnameList : list str;
  fileList : list str;
  latList : list Q;
  longList : list Q;
  addrList : list (list str)
}.

(** The state before the loop: five empty lists (lines 53-57). *)
Definition init_state (g : geo_state) : batch_state :=
  mk_batch_state [] g [] [] [] [] [].

(** [print(...)] and the file-handle events. *)
Definition emit (ev : event) : PyM batch_state unit :=
  pmodify (fun st => mk_batch_state (trace st ++ [ev]) (geo st) (fileFullnameList st)
                       (fileList st) (latList st) (longList st) (addrList st)).

(** [fileList.append(f)] (line 88) and the other four appends. *)
Definition append_fileList (f : str) : PyM batch_state unit :=
  pmodify (fun st => mk_batch_state (trace st) (geo st) (fileFullnameList st)
                       (fileList st ++ [f]) (latList st) (longList st) (addrList st)).

Definition append_fileFullnameList (filename : str) : PyM batch_state unit :=
  pmodify (fun st => mk_batch_state (trace st) (geo st) (fileFullnameList st ++ [filename])
                       (fileList st) (latList st) (longList st) (addrList st)).

Definition append_latList (lat : Q) : PyM batch_state unit :=
  pmodify (fun st => mk_batch_state (trace st) (geo st) (fileFullnameList st)
                       (fileList st) (latList st ++ [lat]) (longList st) (addrList st)).

Definition append_longList (long : Q) : PyM batch_state unit :=
  pmodify (fun st => mk_batch_state (trace st) (geo st) (fileFullnameList st)
                       (fileList st) (latList st) (longList st ++ [long]) (addrList st)).

Definition append_addrList (addrL : list str) : PyM batch_state unit :=
  pmodify (fun st => mk_batch_state (trace st) (geo st) (fileFullnameList st)
                       (fileList st) (latList st) (longList st) (addrList st ++ [addrL])).

(** [src = open(filename, 'rb'); img = Image(src); src.close()]
    (lines 64-66). *)
Definition open_exif_image (filename : str) : PyM batch_state exif_image :=
  match open_image filename with
  | OpenFailed e => praise e
  | ImageFailed e => emit (EvOpen filename) ;; praise e
  | Opened img => emit (EvOpen filename) ;; emit (EvClose filename) ;; pret img
  end.

(** [Nominatim(user_agent="myApp").reverse([lat, long], language='en')]
    (line 83): one request, which may raise or answer [None]. *)
Definition nominatim_reverse (lat long : Q) : PyM batch_state (option str) :=
  fun st =>
    let '(r, g') := reverse (geo st) (list_ascii_of_string "myApp") lat long
                      (list_ascii_of_string "en") in
    let st' := mk_batch_state (trace st ++ [EvReverse lat long]) g' (fileFullnameList st)
                 (fileList st) (latList st) (longList st) (addrList st) in
    match r with
    | GeoRaised e => (PyRaise e, st')
    | GeoNone => (PyOk None, st')
    | GeoFound a => (PyOk (Some a), st')
    end.

(** The body of the second [try] (lines 73-97): read the tags, convert,
    geocode, split the address and append to the five lists. *)
Definition read_exif (f filename : str) (img : exif_image) : PyM batch_state unit :=
  if has_exif img then
    x <- of_option AttributeError (pixel_x_dimension img) ;;
    y <- of_option AttributeError (pixel_y_dimension img) ;;
    emit (OutDims x y) ;;
    glon <- of_option AttributeError (gps_longitude img) ;;
    glonr <- of_option AttributeError (gps_longitude_ref img) ;;
    emit (OutGpsLongitude glon glonr) ;;
    glat <- of_option AttributeError (gps_latitude img) ;;
    glatr <- of_option AttributeError (gps_latitude_ref img) ;;
    emit (OutGpsLatitude glat glatr) ;;
    dlat <- lift_res (decimal_coords glat glatr) ;;
    let lat := py_round dlat 6 in
    dlong <- lift_res (decimal_coords glon glonr) ;;
    let long := py_round dlong 6 in
    emit (OutLatLong lat long) ;;
    addr <- nominatim_reverse lat long ;;
    emit (OutAddress addr) ;;
    address <- of_option AttributeError addr ;;
    addrL <- lift_res (py_split (list_ascii_of_string ", ") address) ;;
    append_fileList f ;;
    append_fileFullnameList filename ;;
    append_latList lat ;;
    append_longList long ;;
    append_addrList addrL ;;
    emit OutBlank
  else emit (OutNoExif filename).

(** [filename = folderName + '\\' + f] (line 60). *)
Definition join_path (folderName f : str) : str :=
  folderName ++ list_ascii_of_string "\" ++ f.

(** One iteration of [for f in folderFileList] (lines 60-101). *)
Definition process_file (folderName f : str) : PyM batch_state unit :=
  let filename := join_path folderName f in
  r <- try_except (img <- open_exif_image filename ;; pret (Some img))
                  (fun _ => emit (OutCouldNotOpen filename) ;; pret None) ;;
  match r with
  | None => pret tt
  | Some img =>
      emit (OutOpening filename) ;;
      try_except (read_exif f filename img) (fun _ => emit (OutException filename))
  end.

(** The loop (lines 59-101). *)
Definition collect (folderName : str) (files : list str) : PyM batch_state unit :=
  py_for (process_file folderName) files.

(** The loop as a transition system: a configuration is the list of
    files still to visit and the state; a step runs one iteration. *)
Inductive batch_step (folderName : str) : list str * batch_state -> list str * batch_state -> Prop :=
| batch_step_file f files st st' :
    process_file folderName f st = (PyOk tt, st') ->
    batch_step folderName (f :: files, st) (files, st').

(** ** The per-file contract of the spec (section 4.2) *)

(** A located photo: the unit of output of the pipeline. *)
Record location_record : Type := mk_location_record {
  rec_fileName : str;
  rec_fullPath : str;
  rec_lat : Q;
  rec_long : Q;
  rec_addr : list str
}.

Inductive failure : Type := OpenError | ExifReadError | GeocodeError.

Inductive outcome : Type :=
| Located (r : location_record)
| SkippedNoExif
| Failed (why : failure).

(** Steps 1-7 of the extractor as a pure function of the file system and
    the geocoder: open, test for EXIF, read the four GPS tags, convert
    and round, geocode (the only call that changes the service state),
    split the address. *)
Definition extract (folderName f : str) (g : geo_state) : outcome * geo_state :=
  let path := join_path folderName f in
  match open_image path with
  | OpenFailed _ | ImageFailed _ => (Failed OpenError, g)
  | Opened img =>
      if has_exif img then
        match gps_latitude img, gps_latitude_ref img, gps_longitude img, gps_longitude_ref img with
        | Some la, Some lar, Some lo, Some lor =>
            match decimal_coords la lar, decimal_coords lo lor with
            | PyOk dla, PyOk dlo =>
                let lat := py_round dla 6 in
                let long := py_round dlo 6 in
                match reverse g (list_ascii_of_string "myApp") lat long (list_ascii_of_string "en") with
                | (GeoFound a, g') =>
                    (Located (mk_location_record f path lat long
                                (split_list (list_ascii_of_string ", ") a)), g')
                | (_, g') => (Failed GeocodeError, g')
                end
            | _, _ => (Failed ExifReadError, g)
            end
        | _, _, _, _ => (Failed ExifReadError, g)
        end
      else (SkippedNoExif, g)
  end.

Definition located (o : outcome) : list location_record :=
  match o with Located r => [r] | _ => [] end.

(** The skip diagnostic the spec asks for each kind of outcome. *)
Definition outcome_diag (path : str) (o : outcome) : list event :=
  match o with
  | Located _ => []
  | SkippedNoExif => [OutNoExif path]
  | Failed OpenError => [OutCouldNotOpen path]
  | Failed _ => [OutException path]
  end.

(** The batch of the spec: the outcome of each file, in listing order. *)
Fixpoint spec_collect (folderName : str) (files : list str) (g : geo_state)
    : list outcome * geo_state :=
  match files with
  | [] => ([], g)
  | f :: files' =>
      let '(o, g1) := extract folderName f g in
      let '(os, g2) := spec_collect folderName files' g1 in
      (o :: os, g2)
  end.

(** The geocoder requests an outcome costs: one for every file whose
    coordinates were converted. *)
Definition requests (o : outcome) : nat :=
  match o with
  | Located _ | Failed GeocodeError => 1
  | _ => 0
  end.

(** The pixel dimensions are read (and printed) before the GPS tags:
    the code meets the contract on a file whose image, when it has EXIF
    data, has both of them. *)
Definition dims_ok (folderName f : str) : bool :=
  match open_image (join_path folderName f) with
  | Opened img =>
      implb (has_exif img)
        (bool_decide (is_Some (pixel_x_dimension img)) &&
         bool_decide (is_Some (pixel_y_dimension img)))
  | _ => true
  end.

End Batch.

(** ** One iteration *)

Section BatchLemmas.
Context `{FS : FileSystem} `{GC : Geocoder}.

Definition is_open (ev : event) : bool :=
  match ev with EvOpen _ => true | _ => false end.

Definition is_close (ev : event) : bool :=
  match ev with EvClose _ => true | _ => false end.

(** The file is opened and [Image(src)] raises on it. *)
Definition leaked (folderName f : str) : bool :=
  match open_image (join_path folderName f) with ImageFailed _ => true | _ => false end.

Definition is_request (ev : event) : bool :=
  match ev with EvReverse _ _ => true | _ => false end.

(** The diagnostics of a skipped file. *)
Definition skip_event (ev : event) : bool :=
  match ev with
  | OutCouldNotOpen _ | OutNoExif _ | OutException _ => true
  | _ => false
  end.

(** The five lists are unchanged from [st] to [st']. *)
Definition same_lists (st st' : batch_state) : Prop :=
  fileFullnameList st' = fileFullnameList st /\ fileList st' = fileList st /\
  latList st' = latList st /\ longList st' = longList st /\ addrList st' = addrList st.

(** Each of the five lists grew by the entry of one photo. *)
Definition appended (st st' : batch_state) (filename f : str) (lat long : Q)
    (addrL : list str) : Prop :=
  fileFullnameList st' = fileFullnameList st ++ [filename] /\
  fileList st' = fileList st ++ [f] /\
  latList st' = latList st ++ [lat] /\ longList st' = longList st ++ [long] /\
  addrList st' = addrList st ++ [addrL].

(** The address list of one photo as [readExif] builds it: non-empty
    (a split never returns an empty list), and no component holds the
    separator [", "] it was split on. *)
Definition addr_wf (addrL : list str) : Prop :=
  addrL <> [] /\ Forall (fun p => py_contains (list_ascii_of_string ", ") p = false) addrL.

(** The coordinates of one photo are already rounded to six decimals
    ([round(x, 6)] gives them back) and its address list is well formed. *)
Definition entry_wf (lat long : Q) (addrL : list str) : Prop :=
  py_round lat 6 = lat /\ py_round long 6 = long /\ addr_wf addrL.

(** Every entry of the three data lists is well formed. *)
Definition state_wf (st : batch_state) : Prop :=
  Forall (fun x => py_round x 6 = x) (latList st) /\
  Forall (fun x => py_round x 6 = x) (longList st) /\
  Forall addr_wf (addrList st).

Ltac unfold_batch :=
  unfold process_file, open_exif_image, read_exif, emit, append_fileList,
    append_fileFullnameList, append_latList, append_longList, append_addrList,
    nominatim_reverse in *; py_simpl.

Ltac finish_step :=
  do 2 eexists; split; [reflexivity|]; split; [rewrite <- ?app_assoc; reflexivity|];
  split; [reflexivity|];
  first [left; split; [repeat split|reflexivity]
        | right; do 3 eexists; split; [repeat split|]; split; [|reflexivity];
          repeat split; first [apply py_round_idem|apply split_fuel_nonempty
                              |apply split_list_pieces; discriminate]].

Ltac finish_refine :=
  do 2 eexists; split; [reflexivity|]; split; [rewrite <- ?app_assoc; reflexivity|];
  split; [reflexivity|]; split; [reflexivity|]; split; [reflexivity|];
  repeat split; simpl; rewrite ?app_nil_r; reflexivity.

(** Fault isolation of one iteration: it returns normally, and either
    appends one complete entry to all five lists and prints no skip
    diagnostic, or leaves the five lists alone and prints exactly one. *)
Lemma process_file_step (folderName f : str) (st : batch_state) :
  exists st' evs,
    process_file folderName f st = (PyOk tt, st') /\ trace st' = trace st ++ evs /\
    length (filter is_open evs) = length (filter is_close evs) + (if leaked folderName f then 1 else 0) /\
    ((same_lists st st' /\ length (filter skip_event evs) = 1) \/
     (exists lat long addrL,
        appended st st' (join_path folderName f) f lat long addrL /\
        entry_wf lat long addrL /\ length (filter skip_event evs) = 0)).
Proof.
  unfold leaked. unfold_batch. repeat (case_match; simplify_eq; simpl); finish_step.
Qed.

(** The whole loop from any state: it returns normally; the names kept
    form a sub-sequence of the folder listing; the five lists grow in
    step; every file either adds its entry or prints one skip
    diagnostic. *)
Lemma collect_loop (folderName : str) (files : list str) (st : batch_state) :
  exists st' evs kept,
    collect folderName files st = (PyOk tt, st') /\ trace st' = trace st ++ evs /\
    kept `sublist_of` files /\
    fileList st' = fileList st ++ kept /\
    fileFullnameList st' = fileFullnameList st ++ map (join_path folderName) kept /\
    length (latList st') = length (latList st) + length kept /\
    length (longList st') = length (longList st) + length kept /\
    length (addrList st') = length (addrList st) + length kept /\
    length kept + length (filter skip_event evs) = length files /\
    length (filter is_open evs) = length (filter is_close evs) + length (filter (leaked folderName) files).
Proof.
  revert st. induction files as [|f files IH]; intros st.
  - exists st, [], []. rewrite !app_nil_r. repeat split; try done; constructor.
  - destruct (process_file_step folderName f st) as (st1 & evs1 & Hrun & Htr & Hh & Hcase).
    destruct (IH st1) as (st2 & evs2 & kept & Hrun2 & Htr2 & Hsub & Hf & Hff & Hla & Hlo & Had & Hn & Hh2).
    unfold collect in *. simpl. unfold pbind at 1. rewrite Hrun.
    exists st2, (evs1 ++ evs2).
    rewrite Htr2, Htr, <- app_assoc, !filter_app, !length_app, Hh, Hh2.
    destruct Hcase as [[(E1 & E2 & E3 & E4 & E5) Hskip]|(lat & long & addrL & (E1 & E2 & E3 & E4 & E5) & _ & Hskip)];
      [exists kept|exists (f :: kept)]; rewrite Hf, Hff, Hla, Hlo, Had, E1, E2, E3, E4, E5;
      rewrite <- ?app_assoc, ?length_app, length_filter_cons; simpl;
      repeat split; try done; try lia; by constructor.
Qed.
(** The five lists of [st'] extend those of [st] by the fields of [rs]:
    the abstraction from parallel lists to records. *)
Definition records_extend (st st' : batch_state) (rs : list location_record) : Prop :=
  fileList st' = fileList st ++ map rec_fileName rs /\
  fileFullnameList st' = fileFullnameList st ++ map rec_fullPath rs /\
  latList st' = latList st ++ map rec_lat rs /\
  longList st' = longList st ++ map rec_long rs /\
  addrList st' = addrList st ++ map rec_addr rs.

Lemma records_extend_trans st1 st2 st3 rs1 rs2 :
  records_extend st1 st2 rs1 -> records_extend st2 st3 rs2 ->
  records_extend st1 st3 (rs1 ++ rs2).
Proof.
  unfold records_extend. intros (A1 & B1 & C1 & D1 & E1) (A2 & B2 & C2 & D2 & E2).
  rewrite A2, B2, C2, D2, E2, A1, B1, C1, D1, E1, !map_app, <- !app_assoc. done.
Qed.

(** One iteration implements [extract]: same service state, the
    located record appended to the five lists, and the diagnostic of the
    outcome printed. *)
Lemma process_file_refines (folderName f : str) (st : batch_state) :
  dims_ok folderName f = true ->
  exists st' evs,
    process_file folderName f st = (PyOk tt, st') /\ trace st' = trace st ++ evs /\
    geo st' = snd (extract folderName f (geo st)) /\
    filter skip_event evs = outcome_diag (join_path folderName f) (fst (extract folderName f (geo st))) /\
    length (filter is_request evs) = requests (fst (extract folderName f (geo st))) /\
    records_extend st st' (located (fst (extract folderName f (geo st)))).
Proof.
  intros Hd. unfold dims_ok in Hd. unfold extract. unfold_batch.
  destruct (open_image _) as [e|e|img] eqn:Eo; simpl; [finish_refine|finish_refine|].
  destruct (has_exif img) eqn:He; simpl; [|finish_refine].
  destruct (pixel_x_dimension img), (pixel_y_dimension img); try discriminate. simpl.
  repeat (case_match; simplify_eq; simpl in *); finish_refine.
Qed.
(** The loop implements the spec's batch from any state: service state,
    records, skip diagnostics and geocoder requests. *)
Lemma collect_refines_from (folderName : str) (files : list str) (st : batch_state) :
  forallb (dims_ok folderName) files = true ->
  exists st' evs, collect folderName files st = (PyOk tt, st') /\ trace st' = trace st ++ evs /\
    geo st' = (spec_collect folderName files (geo st)).2 /\
    records_extend st st' (flat_map located (spec_collect folderName files (geo st)).1) /\
    filter skip_event evs =
      concat (zip_with (fun f o => outcome_diag (join_path folderName f) o) files
                (spec_collect folderName files (geo st)).1) /\
    length (filter is_request evs) = sum_list_with requests (spec_collect folderName files (geo st)).1.
Proof.
  revert st. induction files as [|f files IH]; intros st Hd.
  - exists st, []. rewrite app_nil_r. repeat split; simpl; rewrite ?app_nil_r; done.
  - simpl in Hd. apply andb_prop in Hd as [Hf Hd].
    destruct (process_file_refines folderName f st Hf)
      as (st1 & evs1 & Hrun & Htr & Hg & Hdiag & Hreq & Hext).
    destruct (IH st1 Hd) as (st2 & evs2 & Hrun2 & Htr2 & Hg2 & Hext2 & Hdiag2 & Hreq2).
    exists st2, (evs1 ++ evs2). unfold collect in *. simpl. unfold pbind at 1. rewrite Hrun.
    rewrite Htr2, Htr, <- app_assoc, !filter_app, length_app.
    destruct (extract folderName f (geo st)) as [o g1] eqn:Ex. simpl in *.
    rewrite Hg in Hg2, Hext2, Hdiag2, Hreq2.
    destruct (spec_collect folderName files g1) as [os g2]. simpl in *.
    rewrite Hdiag, Hdiag2, Hreq, Hreq2.
    repeat split; try done; try (by eapply records_extend_trans).
Qed.

Definition lists_aligned (st : batch_state) : Prop :=
  length (fileFullnameList st) = length (fileList st) /\
  length (latList st) = length (fileList st) /\
  length (longList st) = length (fileList st) /\
  length (addrList st) = length (fileList st).

Lemma batch_step_aligned (folderName : str) (c c' : list str * batch_state) :
  batch_step folderName c c' -> lists_aligned c.2 -> lists_aligned c'.2.
Proof.
  intros [f files st st' Hrun]. simpl.
  destruct (process_file_step folderName f st) as (st1 & evs & Hrun1 & _ & _ & Hcase).
  rewrite Hrun in Hrun1. injection Hrun1 as <-. unfold lists_aligned. intros Ha.
  destruct Hcase as [[(E1 & E2 & E3 & E4 & E5) _]|(? & ? & ? & (E1 & E2 & E3 & E4 & E5) & _)];
    rewrite E1, E2, E3, E4, E5; autorewrite with pymodel in *; simpl in *; lia.
Qed.

Lemma rtc_batch_aligned (folderName : str) (c c' : list str * batch_state) :
  rtc (batch_step folderName) c c' -> lists_aligned c.2 -> lists_aligned c'.2.
Proof. apply (rtc_preserved _ (fun c => lists_aligned c.2)), batch_step_aligned. Qed.

(** Every step appends well-formed entries only. *)
Lemma batch_step_wf (folderName : str) (c c' : list str * batch_state) :
  batch_step folderName c c' -> state_wf c.2 -> state_wf c'.2.
Proof.
  intros [f files st st' Hrun]. simpl.
  destruct (process_file_step folderName f st) as (st1 & evs & Hrun1 & _ & _ & Hcase).
  rewrite Hrun in Hrun1. injection Hrun1 as <-. unfold state_wf. intros (Hla & Hlo & Had).
  destruct Hcase as [[(E1 & E2 & E3 & E4 & E5) _]|(? & ? & ? & (E1 & E2 & E3 & E4 & E5) & (W1 & W2 & W3) & _)];
    rewrite ?E3, ?E4, ?E5; [done|]. rewrite !Forall_app, !Forall_singleton. done.
Qed.

(** A run of [collect] is a sequence of steps to the empty work list. *)
Lemma collect_rtc (folderName : str) (files : list str) (st st' : batch_state) :
  collect folderName files st = (PyOk tt, st') ->
  rtc (batch_step folderName) (files, st) ([], st').
Proof.
  revert st. induction files as [|f files IH]; intros st Hrun.
  - injection Hrun as <-. apply rtc_refl.
  - destruct (process_file_step folderName f st) as (st1 & evs & Hrun1 & _).
    unfold collect in Hrun. simpl in Hrun. unfold pbind at 1 in Hrun. rewrite Hrun1 in Hrun.
    eapply rtc_l; [by constructor|]. by apply IH.
Qed.

(** The state [collect] leaves from the empty lists is aligned. *)
Lemma collect_aligned (folderName : str) (files : list str) (g : geo_state) (st' : batch_state) :
  collect folderName files (init_state g) = (PyOk tt, st') -> lists_aligned st'.
Proof.
  intros Hrun. apply collect_rtc in Hrun.
  apply (rtc_batch_aligned _ _ _ Hrun). repeat split.
Qed.
End BatchLemmas.

(** ** Theorems of the loop *)

Section BatchTheorems.
Context `{FS : FileSystem} `{GC : Geocoder}.

(** C3. Fault isolation: whatever the file system, the images and the
    geocoder do, the loop over the folder returns normally; no
    exception of one file escapes the batch. *)
Theorem collect_fault_isolation (folderName : str) (files : list str) (st : batch_state) :
  exists st', collect folderName files st = (PyOk tt, st').
Proof.
  destruct (collect_loop folderName files st) as (st' & _ & _ & Hrun & _). eauto.
Qed.

(** C4. Invariant: in every state reachable by the loop from the empty
    lists, the five parallel lists have the same length (so the
    dataframe of line 105 and the indexing of lines 117-121 are safe). *)
Theorem reachable_aligned (folderName : str) (files fs : list str) (g : geo_state)
    (st : batch_state) :
  rtc (batch_step folderName) (files, init_state g) (fs, st) -> lists_aligned st.
Proof.
  intros Hr. apply (rtc_batch_aligned _ _ _ Hr). repeat split.
Qed.

(** C5. Well-formedness of the state: in every state reachable by the
    loop from the empty lists, every latitude and longitude is a value
    rounded to six decimals and every address list is non-empty with no
    component containing the separator [", "]. *)
Theorem reachable_wf (folderName : str) (files fs : list str) (g : geo_state)
    (st : batch_state) :
  rtc (batch_step folderName) (files, init_state g) (fs, st) -> state_wf st.
Proof.
  intros Hr. apply (rtc_preserved _ (fun c => state_wf c.2) (batch_step_wf folderName) _ _ Hr).
  repeat constructor.
Qed.

(** C7. Conservation: from the empty lists, the photos kept plus the
    skip diagnostics printed ('Could not open', 'has no EXIF info!',
    'An exception occurred') equal the number of files listed. *)
Theorem collect_count (folderName : str) (files : list str) (g : geo_state)
    (st' : batch_state) :
  collect folderName files (init_state g) = (PyOk tt, st') ->
  length (fileList st') + length (filter skip_event (trace st')) = length files.
Proof.
  intros Hrun.
  destruct (collect_loop folderName files (init_state g))
    as (st1 & evs & kept & Hrun1 & Htr & _ & Hf & _ & _ & _ & _ & Hn & _).
  rewrite Hrun in Hrun1. injection Hrun1 as <-. rewrite Hf, Htr. simpl. lia.
Qed.

(** C8. Order: the names kept are a sub-sequence of the folder
    listing, and each full name is the folder joined with that name. *)
Theorem collect_order (folderName : str) (files : list str) (g : geo_state)
    (st' : batch_state) :
  collect folderName files (init_state g) = (PyOk tt, st') ->
  fileList st' `sublist_of` files /\
  fileFullnameList st' = map (join_path folderName) (fileList st').
Proof.
  intros Hrun.
  destruct (collect_loop folderName files (init_state g))
    as (st1 & evs & kept & Hrun1 & _ & Hsub & Hf & Hff & _).
  rewrite Hrun in Hrun1. injection Hrun1 as <-. rewrite Hf, Hff. done.
Qed.

(** C1. Refinement: when every image with EXIF data has its pixel
    dimensions, the loop implements the spec's batch [spec_collect]: its
    five lists are the fields of the located records in listing order, the
    geocoding service ends in the same state, the skip diagnostics printed
    are, file by file, those of the spec's outcomes, and the requests sent
    to the geocoder are one per file whose coordinates were converted. *)
Theorem collect_refines (folderName : str) (files : list str) (g : geo_state)
    (st' : batch_state) :
  forallb (dims_ok folderName) files = true ->
  collect folderName files (init_state g) = (PyOk tt, st') ->
  records_extend (init_state g) st' (flat_map located (spec_collect folderName files g).1) /\
  geo st' = (spec_collect folderName files g).2 /\
  filter skip_event (trace st') =
    concat (zip_with (fun f o => outcome_diag (join_path folderName f) o) files
              (spec_collect folderName files g).1) /\
  length (filter is_request (trace st')) = sum_list_with requests (spec_collect folderName files g).1.
Proof.
  intros Hd Hrun. destruct (collect_refines_from folderName files (init_state g) Hd)
    as (st1 & evs & Hrun1 & Htr & Hg & Hext & Hdiag & Hreq).
  rewrite Hrun in Hrun1. injection Hrun1 as <-. rewrite Htr. done.
Qed.

(** C21. When [Image(src)] raises, the file opened at line 64 is never
    closed: the trace of the iteration is the open and the 'Could not
    open' line, with no [src.close()]. *)
Theorem image_failure_leaks_handle (folderName f : str) (e : exn) (st st' : batch_state) :
  open_image (join_path folderName f) = ImageFailed e ->
  process_file folderName f st = (PyOk tt, st') ->
  trace st' = trace st ++ [EvOpen (join_path folderName f);
                           OutCouldNotOpen (join_path folderName f)].
Proof.
  intros Ho Hrun. unfold process_file, open_exif_image, emit in Hrun. py_simpl.
  rewrite Ho in Hrun. simpl in Hrun. injection Hrun as <-. simpl. by rewrite <- app_assoc.
Qed.

(** C22. Resources: over the whole loop, the handles opened and never
    closed are exactly one per file on which [Image(src)] raised; on every
    other path the file is closed before the EXIF tags are read, or was
    never opened. *)
Theorem collect_handles (folderName : str) (files : list str) (g : geo_state)
    (st' : batch_state) :
  collect folderName files (init_state g) = (PyOk tt, st') ->
  length (filter is_open (trace st')) =
  length (filter is_close (trace st')) + length (filter (leaked folderName) files).
Proof.
  intros Hrun.
  destruct (collect_loop folderName files (init_state g))
    as (st1 & evs & kept & Hrun1 & Htr & _ & _ & _ & _ & _ & _ & _ & Hh).
  rewrite Hrun in Hrun1. injection Hrun1 as <-. rewrite Htr. done.
Qed.

(** C23. An image with EXIF data but no [pixel_x_dimension] is dropped
    even when its GPS tags and address are valid: reading the
    diagnostic-only dimensions raises, and the lists stay unchanged. *)
Theorem missing_dims_drops_photo (folderName f : str) (img : exif_image) (st : batch_state) :
  open_image (join_path folderName f) = Opened img -> has_exif img = true ->
  pixel_x_dimension img = None ->
  exists st', process_file folderName f st = (PyOk tt, st') /\ same_lists st st' /\
              geo st' = geo st /\
              trace st' = trace st ++ [EvOpen (join_path folderName f);
                                       EvClose (join_path folderName f);
                                       OutOpening (join_path folderName f);
                                       OutException (join_path folderName f)].
Proof.
  intros Ho He Hx. unfold process_file, open_exif_image, read_exif, emit. py_simpl.
  rewrite Ho, He, Hx. simpl. eexists. split; [reflexivity|].
  split; [repeat split|]. split; [done|]. by rewrite <- !app_assoc.
Qed.

(** C24. A failed reverse geocoding (an exception, or [None] whose
    [.address] raises) is reported with the line of a failed EXIF read,
    'An exception occurred while trying to read EXIF data', although a
    request was sent; the lists stay unchanged. *)
Theorem geocode_error_reported_as_exif_error (folderName f : str) (st : batch_state) :
  dims_ok folderName f = true -> fst (extract folderName f (geo st)) = Failed GeocodeError ->
  exists st' evs, process_file folderName f st = (PyOk tt, st') /\ trace st' = trace st ++ evs /\
    same_lists st st' /\ filter skip_event evs = [OutException (join_path folderName f)] /\
    length (filter is_request evs) = 1%nat.
Proof.
  intros Hd Hfail.
  destruct (process_file_refines folderName f st Hd) as (st' & evs & Hrun & Htr & _ & Hdiag & Hreq & Hext).
  rewrite Hfail in Hdiag, Hreq, Hext. exists st', evs.
  destruct Hext as (E1 & E2 & E3 & E4 & E5). simpl in *. rewrite !app_nil_r in *.
  repeat split; done.
Qed.
End BatchTheorems.

(** ** A concrete folder for the witnesses

    Four entries: a photo with GPS tags (the spec's end-to-end example), a
    text file that [Image] cannot parse, a picture without EXIF data, and a
    geotagged photo without pixel dimensions.  The geocoder counts its
    requests and answers the address of the Eiffel tower. *)
Module Demo.
Local Open Scope Q_scope.
Definition s := list_ascii_of_string.

Definition folder : str := s "C:\Photos".
Definition files : list str := [s "eiffel.jpg"; s "notes.txt"; s "plain.png"; s "nodims.jpg"].

Definition eiffel_img : exif_image :=
  mk_exif_image true (Some 4032%Z) (Some 3024%Z) (Some [48; 51; 29.6]) (Some (s "N"))
    (Some [2; 17; 40.2]) (Some (s "E")).

Definition nodims_img : exif_image :=
  mk_exif_image true None None (Some [48; 51; 29.6]) (Some (s "N"))
    (Some [2; 17; 40.2]) (Some (s "E")).

Definition plain_img : exif_image := mk_exif_image false None None None None None None.

(** The four files stored in the directory [dir]. *)
Definition demo_open (dir p : str) : open_result :=
  if bool_decide (p = join_path dir (s "eiffel.jpg")) then Opened eiffel_img
  else if bool_decide (p = join_path dir (s "notes.txt")) then ImageFailed ValueError
  else if bool_decide (p = join_path dir (s "plain.png")) then Opened plain_img
  else if bool_decide (p = join_path dir (s "nodims.jpg")) then Opened nodims_img
  else OpenFailed OSError.

#[export] Instance demo_fs : FileSystem :=
  {| listdir := fun _ => Some files; open_image := demo_open folder |}.

#[export] Instance demo_geo : Geocoder :=
  {| geo_state := nat;
     reverse := fun n _ _ _ _ => (GeoFound eiffel_address, S n) |}.

(** A service that finds no address. *)
Definition none_geo : Geocoder :=
  {| geo_state := unit; reverse := fun u _ _ _ _ => (GeoNone, u) |}.

Definition g0 : @geo_state demo_geo := 0%nat.
Definition st0 : batch_state := init_state g0.

Definition run : pyres unit * batch_state := collect folder files st0.
End Demo.

Import Demo.

Lemma collect_count_witness :
  length (fileList Demo.run.2) + length (filter skip_event (trace Demo.run.2)) = 4%nat.
Proof.
  apply (collect_count (FS := Demo.demo_fs) (GC := Demo.demo_geo) Demo.folder Demo.files 0%nat).
  vm_compute. reflexivity.
Defined.

Lemma reachable_aligned_witness : lists_aligned Demo.run.2.
Proof.
  apply (reachable_aligned (FS := Demo.demo_fs) (GC := Demo.demo_geo) Demo.folder Demo.files [] 0%nat).
  apply collect_rtc.
  vm_compute. reflexivity.
Defined.

Lemma reachable_wf_witness : state_wf Demo.run.2.
Proof.
  apply (reachable_wf (FS := Demo.demo_fs) (GC := Demo.demo_geo) Demo.folder Demo.files [] 0%nat).
  apply collect_rtc.
  vm_compute. reflexivity.
Defined.

Lemma collect_order_witness :
  fileList Demo.run.2 `sublist_of` Demo.files /\
  fileFullnameList Demo.run.2 = map (join_path Demo.folder) (fileList Demo.run.2).
Proof.
  apply (collect_order (FS := Demo.demo_fs) (GC := Demo.demo_geo) Demo.folder Demo.files 0%nat).
  vm_compute. reflexivity.
Defined.

Lemma collect_refines_witness :
  let st' := (collect folder (firstn 3 files) st0).2 in
  let os := (spec_collect folder (firstn 3 files) g0).1 in
  records_extend st0 st' (flat_map located os) /\
  geo st' = (spec_collect folder (firstn 3 files) g0).2 /\
  filter skip_event (trace st') =
    concat (zip_with (fun f o => outcome_diag (join_path folder f) o) (firstn 3 files) os) /\
  length (filter is_request (trace st')) = sum_list_with requests os.
Proof.
  apply (collect_refines folder (firstn 3 files) g0); vm_compute; reflexivity.
Defined.

Lemma image_failure_leaks_handle_witness :
  trace (process_file folder (s "notes.txt") st0).2 =
  trace st0 ++ [EvOpen (join_path folder (s "notes.txt"));
                OutCouldNotOpen (join_path folder (s "notes.txt"))].
Proof.
  apply (image_failure_leaks_handle _ _ ValueError); vm_compute; reflexivity.
Defined.

(** The spec's contract locates the photo without pixel dimensions, the
    code drops it. *)
Lemma missing_dims_drops_photo_witness :
  (exists r, (extract folder (s "nodims.jpg") g0).1 = Located r) /\
  exists st', process_file folder (s "nodims.jpg") st0 = (PyOk tt, st') /\
    same_lists st0 st' /\ geo st' = geo st0 /\
    trace st' = trace st0 ++
      [EvOpen (join_path folder (s "nodims.jpg")); EvClose (join_path folder (s "nodims.jpg"));
       OutOpening (join_path folder (s "nodims.jpg")); OutException (join_path folder (s "nodims.jpg"))].
Proof.
  split; [eexists; vm_compute; reflexivity|].
  apply (missing_dims_drops_photo _ _ nodims_img); vm_compute; reflexivity.
Defined.

Lemma collect_handles_witness :
  length (filter is_open (trace run.2)) =
  length (filter is_close (trace run.2)) + length (filter (leaked folder) files).
Proof. apply (collect_handles folder files g0). vm_compute. reflexivity. Defined.

Lemma geocode_error_reported_as_exif_error_witness :
  exists st' evs,
    process_file (FS := demo_fs) (GC := none_geo) folder (s "eiffel.jpg") (init_state (GC := none_geo) tt) = (PyOk tt, st') /\
    trace st' = [] ++ evs /\ same_lists (init_state (GC := none_geo) tt) st' /\
    filter skip_event evs = [OutException (join_path folder (s "eiffel.jpg"))] /\
    length (filter is_request evs) = 1%nat.
Proof.
  apply (geocode_error_reported_as_exif_error (FS := demo_fs) (GC := none_geo) folder (s "eiffel.jpg")
           (init_state (GC := none_geo) tt)); vm_compute; reflexivity.
Defined.
