(* ===== verification/BatchTrace.v ===== *)
(** * BatchTrace: the order of the events of the loop

    The trace of [Batch.collect] is cut into one segment per file of the
    listing, in listing order: the iterations of [for f in
    folderFileList] (src/main.py lines 59-101) do not interleave.  Each
    segment starts with the open of its own file (line 64) or the report
    that it could not be opened (line 68), holds at most one geocoder
    request (line 83), and sends that request only after [src.close()]
    (line 66) released the handle of the file. *)

From Stdlib Require Import List.
From stdpp Require Import base list strings.
From S2P Require Import Prelude PySeq Coords Collab Batch.

Section BatchTrace.
Context `{FS : FileSystem} `{GC : Geocoder}.

(** The events of one iteration on the file [path]. *)
Definition iteration_trace (path : str) (evs : list event) : Prop :=
  (exists rest, evs = EvOpen path :: rest \/ evs = OutCouldNotOpen path :: rest) /\
  length (filter is_request evs) <= 1 /\
  (existsb is_request evs = true -> exists rest, evs = EvOpen path :: EvClose path :: rest).

(** The events of one iteration. *)
Lemma process_file_trace (folderName f : str) (st : batch_state) :
  exists st' evs, process_file folderName f st = (PyOk tt, st') /\
    trace st' = trace st ++ evs /\ iteration_trace (join_path folderName f) evs.
Proof.
  unfold iteration_trace, process_file, open_exif_image, read_exif, emit, append_fileList,
    append_fileFullnameList, append_latList, append_longList, append_addrList,
    nominatim_reverse in *.
  py_simpl. repeat (case_match; simplify_eq; simpl in * ).
  all: do 2 eexists; split; [reflexivity|]; split; [rewrite <- ?app_assoc; reflexivity|].
  all: split; [eexists; first [left; reflexivity|right; reflexivity]|].
  all: split; [simpl; lia|intros Hreq; simpl in Hreq; first [discriminate Hreq|eexists; reflexivity]].
Qed.
End BatchTrace.

Section BatchTraceTheorems.
Context `{FS : FileSystem} `{GC : Geocoder}.

(** C6. Ordering of the loop's events: the trace a run of the loop adds
    is the concatenation of one segment per listed file, in listing
    order; each segment begins with the open of that file or the report
    that it could not be opened, sends at most one geocoder request, and
    sends it only after the handle of the file was closed. *)
Theorem collect_trace_segments (folderName : str) (files : list str) (st : batch_state) :
  exists segs,
    trace (collect folderName files st).2 = trace st ++ concat segs /\
    Forall2 (fun f evs => iteration_trace (join_path folderName f) evs) files segs.
Proof.
  revert st. induction files as [|f files IH]; intros st.
  - exists []. split; [by rewrite app_nil_r|constructor].
  - destruct (process_file_trace folderName f st) as (st1 & evs & Hrun & Htr & Hit).
    destruct (IH st1) as (segs & Htr' & Hseg). exists (evs :: segs).
    unfold collect in *. simpl. unfold pbind at 1. rewrite Hrun.
    split; [by rewrite Htr', Htr, <- app_assoc|by constructor].
Qed.
End BatchTraceTheorems.
