(* ===== verification/Console.v ===== *)
(** * Console: the text main.py prints for the coordinates of a photo

    Line 80 of src/main.py prints
    [print('lat, long:', str(lat) + ', ' + str(long))] where [lat] and
    [long] are values returned by [round(_, 6)].  This file gives the
    exact text of that line: [print]'s joining of its arguments with one
    space and its final newline ([py_print]), and [str] of a float that
    [round(_, 6)] returned ([float6_text]).  CPython's [str] of a float is
    its shortest round-tripping repr; for a six-decimal value [z / 10^6]
    with [|z| < 10^15] (fewer than 16 significant digits, so the decimal
    is the only one of its length naming its double) that is the decimal
    itself with trailing zeros dropped and one fractional digit kept
    ([48.858222], [2.2945], [48.0]), in scientific notation below [1e-4]
    ([1.2e-05], [5e-06]).  Larger values are left undetermined ([None]):
    their text depends on the binary64 rounding the model does not
    carry.  A reader [parse_float6] inverts the printer, and the whole
    line can be read back into the pair of coordinates it printed. *)

From Stdlib Require Import List ZArith NArith QArith Qabs Ascii String Lia.
From stdpp Require Import base list strings.
From S2P Require Import Prelude PySeq Coords Collab Batch.

(** ** Decimal digits *)

Section Digits.

(** The value of a list of decimal digits, most significant first,
    accumulated from [acc]. *)
Fixpoint digits_val_aux (ds : list nat) (acc : N) : N :=
  match ds with
  | [] => acc
  | d :: ds' => digits_val_aux ds' (acc * 10 + N.of_nat d)%N
  end.

Definition digits_val (ds : list nat) : N := digits_val_aux ds 0.

(** The [k] least significant digits of [n], most significant first. *)
Fixpoint to_digits (k : nat) (n : N) : list nat :=
  match k with
  | O => []
  | S k' => to_digits k' (n / 10)%N ++ [N.to_nat (n mod 10)%N]
  end.

(** Leading zeros dropped. *)
Fixpoint trim_digits (ds : list nat) : list nat :=
  match ds with
  | O :: ds' => trim_digits ds'
  | _ => ds
  end.

(** The digits of [n] without leading zeros, [[0]] for zero.  [n] has at
    most [N.size n] digits, since [10^k >= 2^k > n] for [k = N.size n]. *)
Definition int_digits (n : N) : list nat :=
  match trim_digits (to_digits (N.to_nat (N.size n)) n) with
  | [] => [0]
  | ds => ds
  end.

(** The six fractional digits of [f < 10^6] without trailing zeros,
    [[0]] when all are zero. *)
Definition frac_digits (f : N) : list nat :=
  match rev (trim_digits (rev (to_digits 6 f))) with
  | [] => [0]
  | ds => ds
  end.

Definition digit_char (d : nat) : ascii := ascii_of_nat (48 + d).

Definition char_digit (c : ascii) : option nat :=
  let n := nat_of_ascii c in
  if (48 <=? n) && (n <? 58) then Some (n - 48) else None.

(** The leading run of digit characters of [s] and the rest. *)
Fixpoint span_digits (s : list ascii) : list nat * list ascii :=
  match s with
  | c :: s' =>
      match char_digit c with
      | Some d => let '(ds, r) := span_digits s' in (d :: ds, r)
      | None => ([], s)
      end
  | [] => ([], [])
  end.

End Digits.

Section DigitLemmas.

Lemma digits_val_aux_spec (ds : list nat) (acc : N) :
  digits_val_aux ds acc = (acc * 10 ^ N.of_nat (length ds) + digits_val ds)%N.
Proof.
  revert acc. induction ds as [|d ds IH]; intros acc; simpl.
  - unfold digits_val. simpl. lia.
  - unfold digits_val. simpl. rewrite !IH. rewrite Nat2N.inj_succ, N.pow_succ_r'. lia.
Qed.

Lemma digits_val_aux_app (l1 l2 : list nat) (acc : N) :
  digits_val_aux (l1 ++ l2) acc = digits_val_aux l2 (digits_val_aux l1 acc).
Proof. revert acc. induction l1; intros acc; simpl; auto. Qed.

Lemma digits_val_app (l1 l2 : list nat) :
  digits_val (l1 ++ l2) = (digits_val l1 * 10 ^ N.of_nat (length l2) + digits_val l2)%N.
Proof. unfold digits_val at 1. by rewrite digits_val_aux_app, digits_val_aux_spec. Qed.

Lemma to_digits_val (k : nat) (n : N) : digits_val (to_digits k n) = (n mod 10 ^ N.of_nat k)%N.
Proof.
  revert n. induction k as [|k IH]; intros n; cbn [to_digits].
  - by rewrite N.mod_1_r.
  - rewrite digits_val_app, IH, Nat2N.inj_succ, N.pow_succ_r', N.Div0.mod_mul_r.
    cbn [length]. change (10 ^ N.of_nat 1)%N with 10%N.
    unfold digits_val. simpl. rewrite N2Nat.id. lia.
Qed.

Lemma to_digits_lt (k : nat) (n : N) : Forall (fun d => d < 10) (to_digits k n).
Proof.
  revert n. induction k as [|k IH]; intros n; simpl; [constructor|].
  apply Forall_app. split; [apply IH|]. constructor; [|constructor].
  pose proof (N.mod_lt n 10). lia.
Qed.

Lemma length_to_digits (k : nat) (n : N) : length (to_digits k n) = k.
Proof. revert n. induction k; intros n; simpl; [done|]. rewrite length_app, IHk. simpl. lia. Qed.

Lemma trim_digits_zeros (ds : list nat) : exists j, ds = repeat 0 j ++ trim_digits ds.
Proof.
  induction ds as [|[|d] ds [j IH]]; simpl; [by exists 0| |by exists 0].
  exists (S j). simpl. by f_equal.
Qed.

Lemma digits_val_zeros (j : nat) (ds : list nat) : digits_val (repeat 0 j ++ ds) = digits_val ds.
Proof. induction j; [done|]. simpl. unfold digits_val in *. simpl. done. Qed.

Lemma trim_digits_val (ds : list nat) : digits_val (trim_digits ds) = digits_val ds.
Proof. destruct (trim_digits_zeros ds) as [j Hj]. rewrite Hj at 2. by rewrite digits_val_zeros. Qed.

(** The digits of [n] without leading zeros have the value [n]. *)
Lemma int_digits_val (n : N) : digits_val (int_digits n) = n.
Proof.
  assert (n < 10 ^ N.of_nat (N.to_nat (N.size n)))%N as Hlt.
  { rewrite N2Nat.id. eapply N.lt_le_trans; [apply N.size_gt|].
    apply N.pow_le_mono_l. lia. }
  assert (digits_val (trim_digits (to_digits (N.to_nat (N.size n)) n)) = n) as Hv.
  { by rewrite trim_digits_val, to_digits_val, N.mod_small. }
  unfold int_digits. destruct (trim_digits _) as [|d ds]; [|done].
  rewrite <- Hv. done.
Qed.

(** The fractional digits scaled back to six places give [f]. *)
Lemma frac_digits_val (f : N) :
  (f < 10 ^ 6)%N ->
  (digits_val (frac_digits f) * 10 ^ (6 - N.of_nat (length (frac_digits f))) = f)%N /\
  (1 <= length (frac_digits f) <= 6)%nat.
Proof.
  intros Hf. unfold frac_digits. remember (to_digits 6 f) as l eqn:El.
  destruct (trim_digits_zeros (rev l)) as [j Hj].
  assert (l = rev (trim_digits (rev l)) ++ repeat 0 j) as Hl.
  { rewrite <- (rev_involutive l) at 1. rewrite Hj at 1. rewrite rev_app_distr. f_equal. apply rev_repeat. }
  assert (length (rev (trim_digits (rev l))) + j = 6)%nat as Hlen.
  { rewrite <- (repeat_length 0 j), <- length_app, <- Hl, El. apply length_to_digits. }
  assert (digits_val l = f) as Hv.
  { rewrite El, to_digits_val, N.mod_small; [done|]. exact Hf. }
  rewrite Hl, digits_val_app, repeat_length in Hv.
  replace (digits_val (repeat 0 j)) with 0%N in Hv
    by (rewrite <- (app_nil_r (repeat 0 j)), digits_val_zeros; done).
  destruct (rev (trim_digits (rev l))) as [|d ds] eqn:E; cbv beta iota in *; cbn [length] in *.
  - split; [|clear -Hlen; lia]. rewrite <- Hv. unfold digits_val. cbn [digits_val_aux].
    rewrite !N.mul_0_l. reflexivity.
  - split; [|clear -Hlen; lia]. rewrite <- Hv, N.add_0_r. do 2 f_equal. clear -Hlen. lia.
Qed.

Lemma char_digit_char (d : nat) : d < 10 -> char_digit (digit_char d) = Some d.
Proof. intros Hd. do 10 (destruct d as [|d]; [reflexivity|]). lia. Qed.

(** Reading the digit characters of [ds] stops at the first character
    that is not a digit. *)
Lemma span_digits_app (ds : list nat) (rest : list ascii) :
  Forall (fun d => d < 10) ds ->
  match rest with c :: _ => char_digit c = None | [] => True end ->
  span_digits (map digit_char ds ++ rest) = (ds, rest).
Proof.
  intros Hds Hr. induction Hds as [|d ds Hd _ IH]; cbn [map app span_digits].
  - destruct rest as [|c r]; [done|]. cbn [span_digits]. by rewrite Hr.
  - rewrite char_digit_char by done. by rewrite IH.
Qed.
End DigitLemmas.

(** ** [str] of a value returned by [round(_, 6)] *)

Section FloatText.

Definition digits_str (ds : list nat) : list ascii := map digit_char ds.

(** Fixed notation of [n / 10^6]: the integer digits, a point, the
    fractional digits. *)
Definition fixed_text (n : N) : list ascii :=
  digits_str (int_digits (n / 10 ^ 6)) ++ ["."%char] ++ digits_str (frac_digits (n mod 10 ^ 6)).

(** Scientific notation of [n / 10^6] below [1e-4], that is for
    [1 <= n <= 99]: the first significant digit, a point and the second
    unless it is zero, then the exponent [e-06] or [e-05]. *)
Definition sci_text (n : N) : list ascii :=
  let ds := int_digits n in
  let mant := match rev (trim_digits (rev ds)) with
              | [] => []
              | [d] => [digit_char d]
              | d :: ds' => digit_char d :: "."%char :: digits_str ds'
              end in
  mant ++ list_ascii_of_string "e-0" ++ [digit_char (7 - length ds)].

(** [str(x)] for the float [x] nearest to [z / 10^6], for [|z| < 10^15];
    beyond, the text depends on binary64 rounding and is left open. *)
Definition float6_text (z : Z) : option (list ascii) :=
  let n := Z.to_N (Z.abs z) in
  if (n <? 10 ^ 15)%N then
    Some ((if (z <? 0)%Z then ["-"%char] else []) ++
          (if ((1 <=? n) && (n <? 100))%N then sci_text n else fixed_text n))
  else None.

(** A reader of unsigned decimals [I[.F][e-E]], as six-decimal integers. *)
Definition parse_unsigned (s : list ascii) : option Z :=
  let '(ip, s2) := span_digits s in
  let '(fp, s3) := match s2 with
                  | c :: r => if decide (c = "."%char) then span_digits r else ([], s2)
                  | [] => ([], [])
                  end in
  let '(ep, s4) := match s3 with
                  | c :: c' :: r =>
                      if decide (c = "e"%char /\ c' = "-"%char) then span_digits r else ([], s3)
                  | _ => ([], s3)
                  end in
  match s4 with
  | [] => Some (Z.of_N (digits_val (ip ++ fp) * 10 ^ (6 - N.of_nat (length fp) - digits_val ep)))
  | _ => None
  end.

Definition parse_float6 (s : list ascii) : option Z :=
  match s with
  | c :: r => if decide (c = "-"%char) then option_map Z.opp (parse_unsigned r) else parse_unsigned s
  | [] => None
  end.

End FloatText.

Section FloatTextLemmas.

Lemma trim_digits_Forall (P : nat -> Prop) (ds : list nat) :
  Forall P ds -> Forall P (trim_digits ds).
Proof.
  induction ds as [|[|d] ds IH]; intros H; simpl; [done| |done].
  apply IH. by inversion H.
Qed.

Lemma int_digits_lt (n : N) : Forall (fun d => d < 10) (int_digits n).
Proof.
  unfold int_digits. pose proof (trim_digits_Forall _ _ (to_digits_lt (N.to_nat (N.size n)) n)).
  destruct (trim_digits _); [repeat constructor; lia|done].
Qed.

Lemma frac_digits_lt (f : N) : Forall (fun d => d < 10) (frac_digits f).
Proof.
  unfold frac_digits.
  pose proof (Forall_rev (trim_digits_Forall _ _ (Forall_rev (to_digits_lt 6 f)))) as H.
  destruct (rev _); [repeat constructor; lia|done].
Qed.

Lemma int_digits_cons (n : N) : exists d ds, int_digits n = d :: ds.
Proof. unfold int_digits. destruct (trim_digits _); eauto. Qed.

(** The fixed notation reads back. *)
Lemma parse_fixed_text (n : N) : parse_unsigned (fixed_text n) = Some (Z.of_N n).
Proof.
  unfold parse_unsigned, fixed_text, digits_str.
  rewrite span_digits_app by (done || apply int_digits_lt). cbn -[span_digits].
  rewrite <- (app_nil_r (map digit_char (frac_digits _))).
  rewrite span_digits_app by (done || apply frac_digits_lt). f_equal.
  pose proof (frac_digits_val (n mod 10 ^ 6) (N.mod_lt n (10 ^ 6) ltac:(by compute))) as [Hf Hlen].
  rewrite digits_val_app, int_digits_val. change (digits_val []) with 0%N. f_equal.
  set (k := N.of_nat (length (frac_digits (n mod 10 ^ 6)))) in *.
  rewrite N.sub_0_r, N.mul_add_distr_r, Hf, <- N.mul_assoc, <- N.pow_add_r.
  replace (k + (6 - k))%N with 6%N by lia.
  rewrite N.mul_comm. symmetry. apply N.Div0.div_mod.
Qed.

(** The text of [str] for [0 <= n < 10^15], before the sign. *)
Definition unsigned_text (n : N) : list ascii :=
  if ((1 <=? n) && (n <? 100))%N then sci_text n else fixed_text n.

(** What the line reader needs of a printed number: it is not empty,
    reads back, does not start with a minus sign, and holds no comma. *)
Definition text_ok (s : list ascii) (n : N) : Prop :=
  s <> [] /\ parse_unsigned s = Some (Z.of_N n) /\ head s <> Some "-"%char /\ ","%char ∉ s.

Definition sci_ok (k : nat) : bool :=
  bool_decide (sci_text (N.of_nat k) <> []) &&
  bool_decide (parse_unsigned (sci_text (N.of_nat k)) = Some (Z.of_nat k)) &&
  bool_decide (head (sci_text (N.of_nat k)) <> Some "-"%char) &&
  bool_decide (","%char ∉ sci_text (N.of_nat k)).

(** The ninety-nine values below [1e-4], checked by evaluation. *)
Lemma sci_text_ok (n : N) : (1 <= n < 100)%N -> text_ok (sci_text n) n.
Proof.
  intros Hn. assert (forallb sci_ok (seq 1 99) = true) as Hall by (vm_compute; reflexivity).
  rewrite forallb_forall in Hall. specialize (Hall (N.to_nat n) ltac:(apply in_seq; lia)).
  unfold sci_ok in Hall. rewrite N2Nat.id, N_nat_Z in Hall.
  repeat (apply andb_prop in Hall as [Hall ?]). apply bool_decide_eq_true in Hall.
  repeat match goal with H : bool_decide _ = true |- _ => apply bool_decide_eq_true in H end.
  repeat split; done.
Qed.

(** A digit is not one of the other characters of a printed number. *)
Lemma digit_char_not (d : nat) (c : ascii) :
  d < 10 -> char_digit c = None -> digit_char d <> c.
Proof. intros Hd Hc <-. rewrite char_digit_char in Hc by done. discriminate. Qed.

Lemma digits_str_not (ds : list nat) (c : ascii) :
  Forall (fun d => d < 10) ds -> char_digit c = None -> c ∉ digits_str ds.
Proof.
  intros Hds Hc. unfold digits_str.
  induction Hds as [|d ds Hd _ IH]; simpl; [apply not_elem_of_nil|].
  rewrite elem_of_cons. intros [H|H]; [|by apply IH]. by apply (digit_char_not d c Hd Hc).
Qed.

Lemma fixed_text_ok (n : N) : text_ok (fixed_text n) n.
Proof.
  destruct (int_digits_cons (n / 10 ^ 6)) as (d & ds & E). pose proof (int_digits_lt (n / 10 ^ 6)) as Hlt.
  split; [|split; [apply parse_fixed_text|split]].
  - unfold fixed_text. rewrite E. discriminate.
  - unfold fixed_text, digits_str. rewrite E. simpl. intros [=Hc].
    rewrite E in Hlt. inversion Hlt. by apply (digit_char_not d "-").
  - unfold fixed_text. rewrite !elem_of_app, list_elem_of_singleton.
    intros [H|[H|H]]; [|done|]; revert H; apply digits_str_not; try done;
      first [apply int_digits_lt|apply frac_digits_lt].
Qed.

Lemma unsigned_text_ok (n : N) : text_ok (unsigned_text n) n.
Proof.
  unfold unsigned_text. destruct ((1 <=? n) && (n <? 100))%N eqn:E; [|apply fixed_text_ok].
  apply andb_prop in E as [E1 E2]. apply N.leb_le in E1. apply N.ltb_lt in E2.
  apply sci_text_ok. lia.
Qed.

Lemma float6_text_eq (z : Z) :
  (Z.abs z < 10 ^ 15)%Z ->
  float6_text z = Some ((if (z <? 0)%Z then ["-"%char] else []) ++ unsigned_text (Z.to_N (Z.abs z))).
Proof.
  intros Hz. unfold float6_text. rewrite (proj2 (N.ltb_lt _ _)); [done|].
  apply N2Z.inj_lt. rewrite Z2N.id by lia. exact Hz.
Qed.

(** A printed coordinate holds no comma. *)
Lemma float6_text_no_comma (z : Z) (t : list ascii) :
  float6_text z = Some t -> ","%char ∉ t.
Proof.
  unfold float6_text. case_match; [|done]. intros [= <-].
  pose proof (unsigned_text_ok (Z.to_N (Z.abs z))) as (_ & _ & _ & Hc). unfold unsigned_text in Hc.
  rewrite elem_of_app. intros [Hm|Hm]; [|done].
  destruct (z <? 0)%Z; [apply list_elem_of_singleton in Hm; discriminate|by apply not_elem_of_nil in Hm].
Qed.








End FloatTextLemmas.

(** ** The line [lat, long: ...] of line 80 *)

Section LatLongLine.

(** [print] of its positional arguments, with the default separator [' '] and end ['\n'], on
    arguments already converted by [str]. *)
Definition py_print (args : list str) : str := py_join [" "%char] args ++ ["010"%char].

(** [str(x)] of a value [x] that [round(_, 6)] returned; such a value is
    [z # 10^6] ([Coords.py_round]). *)
Definition float_str (x : Q) : option str :=
  if decide (Qden x = 1000000%positive) then float6_text (Qnum x) else None.

(** [print('lat, long:', str(lat) + ', ' + str(long))]. *)
Definition latlong_line (lat long : Q) : option str :=
  match float_str lat, float_str long with
  | Some a, Some b =>
      Some (py_print [list_ascii_of_string "lat, long:"; a ++ list_ascii_of_string ", " ++ b])
  | _, _ => None
  end.

(** Reading the line back into the pair of coordinates. *)
Definition parse_latlong_line (t : str) : option (Q * Q) :=
  let pre := list_ascii_of_string "lat, long: " in
  if is_prefix pre t then
    match find_sep (list_ascii_of_string ", ") (drop (length pre) t) with
    | Some (a, b) =>
        match parse_float6 a, parse_float6 (removelast b), last b with
        | Some x, Some y, Some c =>
            if decide (c = "010"%char) then Some (x # 1000000, y # 1000000) else None
        | _, _, _ => None
        end
    | None => None
    end
  else None.

End LatLongLine.

Section LatLongLemmas.

(** The printed number reads back, sign included. *)
Lemma parse_float6_signed (z : Z) :
  parse_float6 ((if (z <? 0)%Z then ["-"%char] else []) ++ unsigned_text (Z.to_N (Z.abs z))) = Some z.
Proof.
  destruct (unsigned_text_ok (Z.to_N (Z.abs z))) as (Hne & Hp & Hh & _).
  destruct (z <? 0)%Z eqn:Hz; cbn [app parse_float6].
  - rewrite decide_True by done. rewrite Hp. simpl. f_equal. apply Z.ltb_lt in Hz. lia.
  - destruct (unsigned_text _) as [|c r] eqn:E; [done|]. cbn [head] in Hh.
    cbn [parse_float6]. rewrite decide_False by congruence. rewrite Hp. f_equal. apply Z.ltb_ge in Hz. lia.
Qed.

(** The line of two readable numbers reads back. *)
Lemma parse_latlong_line_print (a b : str) (x y : Z) :
  parse_float6 a = Some x -> parse_float6 b = Some y -> ","%char ∉ a ->
  parse_latlong_line (py_print [list_ascii_of_string "lat, long:"; a ++ list_ascii_of_string ", " ++ b])
  = Some (x # 1000000, y # 1000000).
Proof.
  intros Ha Hb Hc. unfold parse_latlong_line, py_print.
  assert (py_join [" "%char] [list_ascii_of_string "lat, long:"; a ++ list_ascii_of_string ", " ++ b]
            ++ ["010"%char] =
          list_ascii_of_string "lat, long: " ++ (a ++ [","%char; " "%char] ++ (b ++ ["010"%char])))
    as -> by (simpl; by rewrite <- !app_assoc).
  rewrite (proj2 (is_prefix_spec _ _)) by eauto. rewrite drop_app_length.
  change (list_ascii_of_string ", ") with [","%char; " "%char].
  rewrite (find_sep_join ","%char [" "%char] a (b ++ ["010"%char])).
  - rewrite Ha, removelast_last, Hb, last_snoc. cbn iota. by case_decide.
  - by intros ?%list_elem_of_singleton.
  - destruct (py_contains _ a) eqn:E; [|done]. exfalso. apply Hc.
    eapply py_contains_elem; [exact E|]. by left.
Qed.

Lemma float_str_eq (x : Q) :
  Qden x = 1000000%positive -> (Z.abs (Qnum x) < 10 ^ 15)%Z ->
  float_str x = Some ((if (Qnum x <? 0)%Z then ["-"%char] else []) ++
                      unsigned_text (Z.to_N (Z.abs (Qnum x)))).
Proof. intros Hd Hz. unfold float_str. rewrite decide_True by done. by apply float6_text_eq. Qed.

(** The line printed for two six-decimal coordinates below [10^9] in
    magnitude reads back into exactly those coordinates. *)
Lemma latlong_line_readable (lat long : Q) :
  Qden lat = 1000000%positive -> Qden long = 1000000%positive ->
  (Z.abs (Qnum lat) < 10 ^ 15)%Z -> (Z.abs (Qnum long) < 10 ^ 15)%Z ->
  exists t, latlong_line lat long = Some t /\ parse_latlong_line t = Some (lat, long).
Proof.
  intros Hd1 Hd2 Hz1 Hz2. unfold latlong_line. rewrite !float_str_eq by done.
  eexists. split; [reflexivity|]. rewrite (parse_latlong_line_print _ _ (Qnum lat) (Qnum long)).
  - destruct lat, long. simpl in *. by subst.
  - apply parse_float6_signed.
  - apply parse_float6_signed.
  - apply (float6_text_no_comma (Qnum lat)). by apply float6_text_eq.
Qed.

(** A coordinate below [10^9] in magnitude has fewer than 16 digits. *)
Lemma Qabs_six_decimals (x : Q) :
  Qden x = 1000000%positive -> (Qabs x < 1000000000)%Q -> (Z.abs (Qnum x) < 10 ^ 15)%Z.
Proof.
  destruct x as [z p]. simpl. intros -> Hx. unfold Qlt, Qabs in Hx. simpl in Hx. lia.
Qed.

End LatLongLemmas.

(** ** The lines the loop prints *)

Section LoopLines.
Context `{FS : FileSystem} `{GC : Geocoder}.

(** A [lat, long] event carries two values of [round(_, 6)]. *)
Definition latlong_rounded (ev : event) : Prop :=
  match ev with
  | OutLatLong la lo => Qden la = 1000000%positive /\ Qden lo = 1000000%positive
  | _ => True
  end.

(** Every stored pair of coordinates was printed and geocoded as that
    pair. *)
Definition coords_logged (st : batch_state) : Prop :=
  length (latList st) = length (longList st) /\
  forall i la lo, latList st !! i = Some la -> longList st !! i = Some lo ->
    OutLatLong la lo ∈ trace st /\ EvReverse la lo ∈ trace st.

(** One iteration prints two values of [round(_, 6)], and the pair it
    stores, if any, is the pair it printed and sent to the geocoder. *)
Lemma process_file_coords (folderName f : str) (st : batch_state) :
  exists st' evs, process_file folderName f st = (PyOk tt, st') /\
    trace st' = trace st ++ evs /\ Forall latlong_rounded evs /\
    ((latList st' = latList st /\ longList st' = longList st) \/
     exists la lo, latList st' = latList st ++ [la] /\ longList st' = longList st ++ [lo] /\
       OutLatLong la lo ∈ evs /\ EvReverse la lo ∈ evs).
Proof.
  unfold process_file, open_exif_image, read_exif, emit, append_fileList,
    append_fileFullnameList, append_latList, append_longList, append_addrList,
    nominatim_reverse.
  py_simpl. repeat (case_match; simplify_eq; simpl in * ).
  all: do 2 eexists; split; [reflexivity|]; split; [rewrite <- ?app_assoc; reflexivity|].
  all: split; [repeat constructor|].
  all: first [left; split; reflexivity
             | right; do 2 eexists; split; [reflexivity|]; split; [reflexivity|];
               split; apply list_elem_of_In; simpl; repeat first [left; reflexivity|right]].
Qed.

Lemma coords_logged_step (st st' : batch_state) (evs : list event) :
  trace st' = trace st ++ evs ->
  ((latList st' = latList st /\ longList st' = longList st) \/
   exists la lo, latList st' = latList st ++ [la] /\ longList st' = longList st ++ [lo] /\
     OutLatLong la lo ∈ evs /\ EvReverse la lo ∈ evs) ->
  coords_logged st -> coords_logged st'.
Proof.
  intros Htr Hcase [Hlen Hlog]. unfold coords_logged. rewrite Htr.
  destruct Hcase as [[-> ->]|(la & lo & -> & -> & Hla & Hre)].
  - split; [done|]. intros i a b Ha Hb. destruct (Hlog i a b Ha Hb).
    rewrite !elem_of_app. auto.
  - rewrite !length_app, Hlen. split; [done|].
    intros i a b [[Hi Ha]|[-> <-]]%lookup_snoc_Some [[Hi' Hb]|[Hi' <-]]%lookup_snoc_Some;
      rewrite !elem_of_app; try lia.
    + destruct (Hlog i a b Ha Hb). auto.
    + auto.
Qed.

Lemma collect_coords (folderName : str) (files : list str) (st : batch_state) :
  coords_logged st -> Forall latlong_rounded (trace st) ->
  coords_logged (collect folderName files st).2 /\
  Forall latlong_rounded (trace (collect folderName files st).2).
Proof.
  revert st. induction files as [|f files IH]; intros st Hc Hr; [done|].
  destruct (process_file_coords folderName f st) as (st1 & evs & Hrun & Htr & Hevs & Hcase).
  unfold collect in *. simpl. unfold pbind. rewrite Hrun. apply IH.
  - by apply (coords_logged_step st st1 evs).
  - rewrite Htr. by apply Forall_app.
Qed.

End LoopLines.

(** ** Theorems *)


Section ConsoleTheorems.
Context `{FS : FileSystem} `{GC : Geocoder}.

(** C13. The console reports the coordinates the program uses: for
    every photo kept by a run of the loop from the empty lists, with
    coordinates below [10^9] in magnitude, the pair [(latList[i],
    longList[i])] is the pair printed on its [lat, long:] line and the
    pair sent to the geocoder, and that printed line reads back into
    exactly this pair. *)
Theorem collect_latlong_lines (folderName : str) (files : list str) (g : geo_state)
    (i : nat) (la lo : Q) :
  latList (collect folderName files (init_state g)).2 !! i = Some la ->
  longList (collect folderName files (init_state g)).2 !! i = Some lo ->
  (Qabs la < 1000000000)%Q -> (Qabs lo < 1000000000)%Q ->
  OutLatLong la lo ∈ trace (collect folderName files (init_state g)).2 /\
  EvReverse la lo ∈ trace (collect folderName files (init_state g)).2 /\
  exists t, latlong_line la lo = Some t /\ parse_latlong_line t = Some (la, lo).
Proof.
  intros Ha Hb Hla Hlo.
  destruct (collect_coords folderName files (init_state g)) as [[_ Hlog] Hall];
    [split; [done|]; intros ? ? ? [=]|constructor|].
  destruct (Hlog i la lo Ha Hb) as [Hin Hre]. split; [done|]. split; [done|].
  rewrite Forall_forall in Hall. destruct (Hall _ Hin) as [Hd1 Hd2].
  apply latlong_line_readable; try done; by apply Qabs_six_decimals.
Qed.
End ConsoleTheorems.

(** ** Examples and witnesses *)

Example float6_text_fixed : float6_text 48858222 = Some (list_ascii_of_string "48.858222").
Proof. vm_compute. reflexivity. Qed.

Example float6_text_trailing : float6_text (-2294500) = Some (list_ascii_of_string "-2.2945").
Proof. vm_compute. reflexivity. Qed.

Example float6_text_leading_zero : float6_text 48050000 = Some (list_ascii_of_string "48.05").
Proof. vm_compute. reflexivity. Qed.

Example float6_text_small : float6_text 12 = Some (list_ascii_of_string "1.2e-05").
Proof. vm_compute. reflexivity. Qed.

Example float6_text_zero : float6_text 0 = Some (list_ascii_of_string "0.0").
Proof. vm_compute. reflexivity. Qed.


(** The line of the Eiffel photo of [Batch.Demo]. *)
Example eiffel_latlong_line :
  latlong_line (48858222 # 1000000) (2294500 # 1000000) =
  Some (list_ascii_of_string "lat, long: 48.858222, 2.2945" ++ ["010"%char]).
Proof. vm_compute. reflexivity. Qed.

Lemma collect_latlong_lines_witness :
  OutLatLong (48858222 # 1000000) (2294500 # 1000000) ∈ trace Demo.run.2 /\
  EvReverse (48858222 # 1000000) (2294500 # 1000000) ∈ trace Demo.run.2 /\
  exists t, latlong_line (48858222 # 1000000) (2294500 # 1000000) = Some t /\
            parse_latlong_line t = Some (48858222 # 1000000, 2294500 # 1000000).
Proof.
  apply (collect_latlong_lines (FS := Demo.demo_fs) (GC := Demo.demo_geo) Demo.folder Demo.files
           Demo.g0 0); vm_compute; reflexivity.
Defined.
