(* ===== verification/Tooltip.v ===== *)
(** * Tooltip: the tooltip string of a marker (src/main.py lines 118-120)

    [ss1 = ' '.join(addrList[i][:-6])], [ss2 = ' '.join(addrList[i][-5:])]
    and [tooltipStr = f'{fileList[i]} {ss1} {ss2}'].  The theorems show
    which address components reach the tooltip: all of them when there are
    at most five, and all but the sixth from the end otherwise; and that
    the tooltip is a single line (the separators are spaces, not the
    [<br>] markup the spec asks for). *)

From Stdlib Require Import List ZArith Ascii String Lia.
From stdpp Require Import base list strings.
From S2P Require Import Prelude PySeq.

Definition space : str := list_ascii_of_string " ".

(** [addrList[i][:-6]]: the components before the last six. *)
Definition leading_group (addrL : list str) : list str :=
  py_slice addrL None (Some (-6)%Z).

(** [addrList[i][-5:]]: the last five components. *)
Definition trailing_group (addrL : list str) : list str :=
  py_slice addrL (Some (-5)%Z) None.

(** [tooltipStr = f'{fileList[i]} {ss1} {ss2}'] (lines 118-120). *)
Definition tooltip_str (fname : str) (addrL : list str) : str :=
  let ss1 := py_join space (leading_group addrL) in
  let ss2 := py_join space (trailing_group addrL) in
  fname ++ space ++ ss1 ++ space ++ ss2.

Lemma leading_group_take (addrL : list str) :
  leading_group addrL = take (length addrL - 6) addrL.
Proof. apply (py_slice_neg_stop addrL 6). done. Qed.

Lemma trailing_group_drop (addrL : list str) :
  trailing_group addrL = drop (length addrL - 5) addrL.
Proof. apply (py_slice_neg_start addrL 5). done. Qed.

(** C11. With six or more components, the two groups and the component
    at position [len - 6] make up the whole address: exactly that one
    component (the street of a Nominatim address) is missing from the
    tooltip, where the spec asks for all but the last five on line two. *)
Theorem tooltip_groups_skip (addrL : list str) (x : str) :
  6 <= length addrL -> addrL !! (length addrL - 6) = Some x ->
  leading_group addrL ++ x :: trailing_group addrL = addrL.
Proof.
  intros Hlen Hx. rewrite leading_group_take, trailing_group_drop.
  replace (length addrL - 5) with (S (length addrL - 6)) by lia.
  by apply take_drop_middle.
Qed.

(** C19. With at most five components nothing is lost and no index error
    can occur: the first group is empty and the second is the whole
    address. *)
Theorem tooltip_groups_short (addrL : list str) :
  length addrL <= 5 -> leading_group addrL = [] /\ trailing_group addrL = addrL.
Proof.
  intros Hlen. rewrite leading_group_take, trailing_group_drop.
  replace (length addrL - 6) with 0 by lia. replace (length addrL - 5) with 0 by lia.
  done.
Qed.

(** C20. The tooltip is one line: when neither the name nor any
    component contains '<', the tooltip contains no [<br>] markup (the
    spec asks for three lines separated by [<br>]). *)
Theorem tooltip_single_line (fname : str) (addrL : list str) :
  "<"%char ∉ fname -> Forall (fun c => "<"%char ∉ c) addrL ->
  py_contains (list_ascii_of_string "<br>") (tooltip_str fname addrL) = false.
Proof.
  intros Hf Hl. apply not_true_iff_false. intros Hc.
  apply (py_contains_elem _ _ "<"%char) in Hc; [|by left].
  assert ("<"%char ∉ space) as Hs by (unfold space; simpl; rewrite list_elem_of_singleton; done).
  unfold tooltip_str in Hc. rewrite leading_group_take, trailing_group_drop in Hc.
  rewrite !elem_of_app in Hc.
  destruct Hc as [Hc|[Hc|[Hc|[Hc|Hc]]]]; try done; revert Hc; apply py_join_not_elem; try done.
  - by apply Forall_take.
  - by apply Forall_drop.
Qed.

(** ** The tooltip of the spec's end-to-end example *)

Definition eiffel_name : str := list_ascii_of_string "eiffel.jpg".

(** The street component "Tour Eiffel" is dropped and the first group is
    empty, which leaves two spaces after the name. *)
Example eiffel_tooltip :
  tooltip_str eiffel_name eiffel_components =
  list_ascii_of_string "eiffel.jpg  Avenue Anatole France Paris Ile-de-France 75007 France".
Proof. vm_compute. reflexivity. Qed.

Lemma tooltip_groups_skip_witness :
  leading_group eiffel_components ++ list_ascii_of_string "Tour Eiffel" ::
    trailing_group eiffel_components = eiffel_components.
Proof. apply tooltip_groups_skip; vm_compute; [lia|reflexivity]. Defined.

Lemma tooltip_groups_short_witness :
  leading_group (map list_ascii_of_string ["123 Main St"; "Springfield"]%string) = [] /\
  trailing_group (map list_ascii_of_string ["123 Main St"; "Springfield"]%string) =
    map list_ascii_of_string ["123 Main St"; "Springfield"]%string.
Proof. apply tooltip_groups_short. simpl. lia. Defined.

Lemma tooltip_single_line_witness :
  py_contains (list_ascii_of_string "<br>") (tooltip_str eiffel_name eiffel_components) = false.
Proof.
  apply tooltip_single_line.
  - apply (bool_decide_unpack _). vm_compute. exact I.
  - apply Forall_forall. intros c Hc. apply (bool_decide_unpack _). revert c Hc.
    apply Forall_forall. vm_compute. repeat constructor.
Defined.
