(* ===== verification/MainApp.v ===== *)
(** * MainApp: the whole of main() (src/main.py lines 39-128)

    After the loop of [Batch], main builds a pandas dataframe of four of
    the lists (lines 104-106), centres a mapPy map on the mean latitude and
    longitude (lines 109-113), adds one marker per kept photo with the
    tooltip of [Tooltip] (lines 116-122), saves the map and shows it
    (lines 125-128).  mapPy (GT's mapping package) and pandas are not part
    of the repository: [MapPy] and [pd_DataFrame] model them from the spec
    (section 6: the centre is the arithmetic mean, the map collects its
    markers) and from pandas' documented check that all columns have the
    same length. *)

From Stdlib Require Import List ZArith QArith Qabs Lqa Ascii String Lia.
From stdpp Require Import base list strings.
From S2P Require Import Prelude PySeq Coords Collab Batch Tooltip.

Local Open Scope py_scope.

(** ** mapPy *)

Module MapPy.
Record marker : Type := mk_marker {
  m_lat : Q;
  m_long : Q;
  m_image : str;
  m_scale : Q;
  m_color : str;
  m_tooltip : str
}.

Record map_obj : Type := mk_map {
  map_lat : Q;
  map_long : Q;
  map_zoom : Z;
  map_markers : list marker
}.

(** [mapy.getCenterPoint(values)]: the arithmetic mean (spec, section
    4.5).  mapPy is not in the repository and the spec leaves the empty
    list undefined; [ZeroDivisionError] stands in for it, and no theorem
    depends on that case. *)
Definition getCenterPoint (values : list Q) : pyres Q :=
  match values with
  | [] => PyRaise ZeroDivisionError
  | _ => PyOk (fold_right Qplus 0%Q values / inject_Z (Z.of_nat (length values)))%Q
  end.

(** [mapy.createMap(lat, long, zoom)]: an empty map at that centre. *)
Definition createMap (lat long : Q) (zoom : Z) : map_obj := mk_map lat long zoom [].

(** [mapy.addMarkerWithImage(map, lat, long, image, scale, mColor, mTooltip)]. *)
Definition addMarkerWithImage (m : map_obj) (lat long : Q) (image : str) (scale : Q)
    (color tooltip : str) : map_obj :=
  mk_map (map_lat m) (map_long m) (map_zoom m)
    (map_markers m ++ [mk_marker lat long image scale color tooltip]).
End MapPy.
Import MapPy.

(** [pd.DataFrame(data)] with the four columns of line 104: pandas raises
    [ValueError] when the columns differ in length. *)
Record data_frame : Type := mk_data_frame {
  df_filenames : list str;
  df_latitudes : list Q;
  df_longitudes : list Q;
  df_addresses : list (list str)
}.

Definition pd_DataFrame (fs : list str) (lats longs : list Q) (addrs : list (list str))
    : pyres data_frame :=
  if bool_decide (length lats = length fs /\ length longs = length fs /\ length addrs = length fs)
  then PyOk (mk_data_frame fs lats longs addrs)
  else PyRaise ValueError.

(** ** The marker loop (lines 116-122) *)

Section Markers.
Context `{GC : Geocoder}.

(** One iteration of [for i in range(n)]: the indexing of the five
    lists, the tooltip, and the marker added to the map. *)
Definition add_marker (scaleFactor : Q) (st : batch_state) (i : nat) : PyM map_obj unit :=
  addrL <- of_option IndexError (py_getitem (addrList st) (Z.of_nat i)) ;;
  f <- of_option IndexError (py_getitem (fileList st) (Z.of_nat i)) ;;
  lat <- of_option IndexError (py_getitem (latList st) (Z.of_nat i)) ;;
  long <- of_option IndexError (py_getitem (longList st) (Z.of_nat i)) ;;
  image <- of_option IndexError (py_getitem (fileFullnameList st) (Z.of_nat i)) ;;
  pmodify (fun m => addMarkerWithImage m lat long image scaleFactor
                      (list_ascii_of_string "red") (tooltip_str f addrL)).

Definition add_markers (scaleFactor : Q) (st : batch_state) : PyM map_obj unit :=
  py_for (add_marker scaleFactor st) (seq 0 (length (fileList st))).
End Markers.

(** ** main (lines 39-128) *)

(** What main prints or hands to mapPy after the loop. *)
Inductive app_event : Type :=
| PrintDataFrame (df : data_frame)           (** [print(pData)] *)
| SaveMap (file : str) (m : map_obj)         (** [mapy.saveMap(map, "test_map.html")] *)
| ShowMap (m : map_obj).                     (** [mapy.showMap(map)] *)

(** [scaleFactor = 0.1] (line 41). *)
Definition scaleFactor : Q := 1 # 10.

(** [zoomLevel = 14] (line 44). *)
Definition zoomLevel : Z := 14.

(** The folder of line 47. *)
Definition folderName : str :=
  list_ascii_of_string "C:\Users\VeronikaDavis\Documents\Jupyter Notebook\pro1\MappingPhotos".

Section Main.
Context `{FS : FileSystem} `{GC : Geocoder}.

Record app_state : Type := mk_app_state {
  app_batch : batch_state;
  app_events : list app_event
}.

Definition lift_batch {A} (m : PyM batch_state A) : PyM app_state A :=
  fun s => let '(r, b) := m (app_batch s) in (r, mk_app_state b (app_events s)).

Definition emit_app (ev : app_event) : PyM app_state unit :=
  pmodify (fun s => mk_app_state (app_batch s) (app_events s ++ [ev])).

(** The body of main after the constants: list the folder, run the
    loop, print the dataframe, build the map, add the markers, save and
    show.  [assert map is not None] (line 113) always holds since
    [createMap] returns a map. *)
Definition main_body : PyM app_state unit :=
  folderFileList <- of_option OSError (listdir folderName) ;;
  lift_batch (collect folderName folderFileList) ;;
  st <- pgets app_batch ;;
  pData <- lift_res (pd_DataFrame (fileList st) (latList st) (longList st) (addrList st)) ;;
  emit_app (PrintDataFrame pData) ;;
  clat <- lift_res (getCenterPoint (latList st)) ;;
  clong <- lift_res (getCenterPoint (longList st)) ;;
  let map := createMap clat clong zoomLevel in
  map' <- lift_res (exec_on (add_markers scaleFactor st) map) ;;
  emit_app (SaveMap (list_ascii_of_string "test_map.html") map') ;;
  emit_app (ShowMap map').

(** [main()] from the five empty lists and a service state. *)
Definition main (g : geo_state) : pyres unit * app_state :=
  main_body (mk_app_state (init_state g) []).

(** [if __name__ == "__main__": main()] (lines 131-132): run as a script,
    the module calls [main] once; imported under another name, it runs
    nothing. *)
Definition module_main (name : str) (g : geo_state) : option (pyres unit * app_state) :=
  if bool_decide (name = list_ascii_of_string "__main__") then Some (main g) else None.
End Main.

(** ** The marker loop *)

Section MarkerLemmas.
Context `{GC : Geocoder}.

(** The markers the loop is meant to add: one per photo, from the
    entries of the five lists at the same position. *)
Definition expected_markers (sf : Q) (st : batch_state) : list marker :=
  zip_with (fun fa rest =>
              mk_marker rest.1 rest.2.1 rest.2.2 sf (list_ascii_of_string "red")
                (tooltip_str fa.1 fa.2))
    (zip_with pair (fileList st) (addrList st))
    (zip_with pair (latList st) (zip_with pair (longList st) (fileFullnameList st))).

Lemma add_marker_at (sf : Q) (st : batch_state) (i : nat) (m : map_obj) (k : marker) :
  expected_markers sf st !! i = Some k ->
  add_marker sf st i m =
  (PyOk tt, mk_map (map_lat m) (map_long m) (map_zoom m) (map_markers m ++ [k])).
Proof.
  unfold expected_markers. rewrite lookup_zip_with.
  intros Hk. unfold add_marker. rewrite !py_getitem_nat.
  destruct (fileList st !! i) eqn:E1, (addrList st !! i) eqn:E2,
    (latList st !! i) eqn:E3, (longList st !! i) eqn:E4, (fileFullnameList st !! i) eqn:E5;
    simpl in Hk; rewrite ?lookup_zip_with, ?E1, ?E2, ?E3, ?E4, ?E5 in Hk; simpl in Hk;
    try discriminate.
  injection Hk as <-. py_simpl. done.
Qed.
Lemma length_expected_markers (sf : Q) (st : batch_state) :
  lists_aligned st -> length (expected_markers sf st) = length (fileList st).
Proof.
  intros (H1 & H2 & H3 & H4). unfold expected_markers.
  rewrite !length_zip_with. lia.
Qed.

Lemma add_markers_prefix (sf : Q) (st : batch_state) (n : nat) (la lo : Q) (z : Z)
    (ms : list marker) :
  n <= length (expected_markers sf st) ->
  py_for (add_marker sf st) (seq 0 n) (mk_map la lo z ms) =
  (PyOk tt, mk_map la lo z (ms ++ take n (expected_markers sf st))).
Proof.
  induction n as [|n IH]; intros Hn; [by rewrite app_nil_r|].
  rewrite seq_S, py_for_app. unfold pbind at 1. rewrite IH by lia.
  destruct (lookup_lt_is_Some_2 (expected_markers sf st) n) as [k Hk]; [lia|].
  simpl. unfold pbind. rewrite (add_marker_at _ _ _ _ _ Hk).
  rewrite (take_S_r _ _ _ Hk), app_assoc. done.
Qed.

(** The marker loop adds the expected markers, in order, to the map. *)
Lemma add_markers_spec (sf : Q) (st : batch_state) (m : map_obj) :
  lists_aligned st ->
  add_markers sf st m =
  (PyOk tt, mk_map (map_lat m) (map_long m) (map_zoom m) (map_markers m ++ expected_markers sf st)).
Proof.
  intros Ha. destruct m as [la lo z ms]. unfold add_markers. simpl.
  rewrite <- (length_expected_markers sf st Ha), add_markers_prefix by lia.
  by rewrite take_ge.
Qed.
(** One iteration of the marker loop returns or raises [IndexError]. *)
Lemma add_marker_result (sf : Q) (st : batch_state) (i : nat) (m : map_obj) :
  fst (add_marker sf st i m) = PyOk tt \/ fst (add_marker sf st i m) = PyRaise IndexError.
Proof.
  unfold add_marker.
  destruct (py_getitem (addrList st) _), (py_getitem (fileList st) _), (py_getitem (latList st) _),
    (py_getitem (longList st) _), (py_getitem (fileFullnameList st) _); py_simpl; auto.
Qed.

(** An index past the end of one of the lists read raises [IndexError]. *)
Lemma add_marker_out_of_range (sf : Q) (st : batch_state) (i : nat) (m : map_obj) :
  addrList st !! i = None \/ fileList st !! i = None \/ latList st !! i = None \/
  longList st !! i = None \/ fileFullnameList st !! i = None ->
  fst (add_marker sf st i m) = PyRaise IndexError.
Proof.
  unfold add_marker. rewrite !py_getitem_nat.
  intros [E|[E|[E|[E|E]]]]; rewrite E;
    destruct (addrList st !! i), (fileList st !! i), (latList st !! i),
      (longList st !! i), (fileFullnameList st !! i); py_simpl; auto.
Qed.
(** The marker main builds for one located record of the spec's
    contract. *)
Definition record_marker (sf : Q) (r : location_record) : marker :=
  mk_marker (rec_lat r) (rec_long r) (rec_fullPath r) sf (list_ascii_of_string "red")
    (tooltip_str (rec_fileName r) (rec_addr r)).

(** Lists made of the fields of records give one marker per record. *)
Lemma expected_markers_records (sf : Q) (st : batch_state) (rs : list location_record) :
  fileList st = map rec_fileName rs -> fileFullnameList st = map rec_fullPath rs ->
  latList st = map rec_lat rs -> longList st = map rec_long rs -> addrList st = map rec_addr rs ->
  expected_markers sf st = map (record_marker sf) rs.
Proof.
  unfold expected_markers. intros -> -> -> -> ->.
  induction rs as [|r rs IH]; [done|]. cbn [map zip_with]. f_equal. exact IH.
Qed.
End MarkerLemmas.

(** ** The centre point *)

Lemma fold_sum_bounds (lo hi : Q) (values : list Q) :
  Forall (fun v => lo <= v <= hi)%Q values ->
  (inject_Z (Z.of_nat (length values)) * lo <= fold_right Qplus 0 values <=
   inject_Z (Z.of_nat (length values)) * hi)%Q.
Proof.
  induction 1 as [|v values Hv _ IH]; cbn [length fold_right]; [change (inject_Z (Z.of_nat 0)) with 0%Q; lra|].
  rewrite Nat2Z.inj_succ, <- Z.add_1_r, inject_Z_succ, !Qmult_plus_distr_l, !Qmult_1_l. lra.
Qed.

(** The centre of a non-empty list of coordinates lies between any
    bounds of the coordinates: the map centre of valid latitudes is a
    valid latitude. *)
Theorem getCenterPoint_bounds (values : list Q) (lo hi : Q) :
  values <> [] -> Forall (fun v => lo <= v <= hi)%Q values ->
  exists c, getCenterPoint values = PyOk c /\ (lo <= c <= hi)%Q.
Proof.
  intros Hne Hb. destruct values as [|v vs]; [done|].
  pose proof (fold_sum_bounds lo hi _ Hb) as [H1 H2].
  set (n := inject_Z (Z.of_nat (length (v :: vs)))) in *.
  assert (0 < n)%Q as Hn.
  { unfold n. change 0%Q with (inject_Z 0). rewrite <- Zlt_Qlt. simpl. lia. }
  eexists. split; [reflexivity|]. fold n. split.
  - apply Qle_shift_div_l; [done|]. rewrite Qmult_comm. done.
  - apply Qle_shift_div_r; [done|]. rewrite Qmult_comm. done.
Qed.

Lemma getCenterPoint_bounds_witness :
  exists c, getCenterPoint [10; 20; 30]%Q = PyOk c /\ (10 <= c <= 30)%Q.
Proof.
  apply getCenterPoint_bounds; [discriminate|].
  repeat constructor; vm_compute; discriminate.
Defined.

(** The spec's examples: [center([10.0, 20.0, 30.0]) == 20.0] and
    [center([x]) == x]. *)
Example getCenterPoint_example : getCenterPoint [10; 20; 30]%Q = PyOk (60 # 3).
Proof. reflexivity. Qed.

Lemma getCenterPoint_single (x : Q) : exists c, getCenterPoint [x] = PyOk c /\ (c == x)%Q.
Proof. eexists. split; [reflexivity|]. simpl. field. Qed.

(** ** Theorems of main *)

Section MainTheorems.
Context `{FS : FileSystem} `{GC : Geocoder}.

Lemma pd_DataFrame_aligned (st : batch_state) :
  lists_aligned st ->
  pd_DataFrame (fileList st) (latList st) (longList st) (addrList st) =
  PyOk (mk_data_frame (fileList st) (latList st) (longList st) (addrList st)).
Proof.
  intros (_ & H2 & H3 & H4). unfold pd_DataFrame. rewrite bool_decide_eq_true_2; done.
Qed.

Lemma getCenterPoint_ok (values : list Q) : values <> [] -> exists c, getCenterPoint values = PyOk c.
Proof. destruct values; [done|]. eauto. Qed.

Lemma aligned_coords_nonempty (st : batch_state) :
  lists_aligned st -> fileList st <> [] -> latList st <> [] /\ longList st <> [].
Proof.
  intros (_ & H2 & H3 & _) E.
  split; intros E'; apply E, length_zero_iff_nil; [rewrite <- H2|rewrite <- H3]; by rewrite E'.
Qed.

Ltac main_prelude Hl Hrun :=
  unfold main, main_body;
  erewrite pbind_ok; [|unfold of_option; rewrite Hl; reflexivity];
  erewrite pbind_ok; [|unfold lift_batch; cbn [app_batch]; rewrite Hrun; reflexivity];
  erewrite pbind_ok; [|reflexivity]; simpl app_batch;
  erewrite pbind_ok;
    [|unfold lift_res; rewrite (pd_DataFrame_aligned _ (collect_aligned _ _ _ _ Hrun)); reflexivity];
  erewrite pbind_ok; [|reflexivity].

(** Both centres exist once a photo is kept. *)
Lemma centres_of_kept (st : batch_state) :
  lists_aligned st -> fileList st <> [] ->
  exists cl cg, getCenterPoint (latList st) = PyOk cl /\ getCenterPoint (longList st) = PyOk cg.
Proof.
  intros Ha Hne. destruct (aligned_coords_nonempty st Ha Hne) as [Hla Hlo].
  destruct (getCenterPoint_ok _ Hla) as [cl Hcl], (getCenterPoint_ok _ Hlo) as [cg Hcg]. eauto.
Qed.

(** The whole run of main once the loop has kept a photo: the dataframe
    printed, then the map centred on the two means saved and shown. *)
Lemma main_run_kept (g : geo_state) (files : list str) (st' : batch_state) (cl cg : Q) :
  listdir folderName = Some files ->
  collect folderName files (init_state g) = (PyOk tt, st') ->
  getCenterPoint (latList st') = PyOk cl -> getCenterPoint (longList st') = PyOk cg ->
  main g = (PyOk tt, mk_app_state st'
    [PrintDataFrame (mk_data_frame (fileList st') (latList st') (longList st') (addrList st'));
     SaveMap (list_ascii_of_string "test_map.html")
       (mk_map cl cg zoomLevel (expected_markers scaleFactor st'));
     ShowMap (mk_map cl cg zoomLevel (expected_markers scaleFactor st'))]).
Proof.
  intros Hl Hrun Hcl Hcg. pose proof (collect_aligned _ _ _ _ Hrun) as Ha.
  main_prelude Hl Hrun.
  erewrite pbind_ok; [|unfold lift_res; rewrite Hcl; reflexivity].
  erewrite pbind_ok; [|unfold lift_res; rewrite Hcg; reflexivity].
  erewrite pbind_ok; [|unfold lift_res, exec_on; rewrite add_markers_spec by done; reflexivity].
  reflexivity.
Qed.

(** C12. When at least one photo is kept, main returns normally; it
    prints the dataframe of the four columns, then saves and shows one
    map: centred on the mean
    latitude and longitude, at zoom 14, with one marker per kept photo in
    listing order, each with the photo's coordinates, full path, scale
    0.1, colour red and the tooltip of [tooltip_str]. *)
Theorem main_map (g : geo_state) (files : list str) :
  listdir folderName = Some files ->
  fileList (collect folderName files (init_state g)).2 <> [] ->
  (main g).1 = PyOk tt /\
  exists m,
    let st' := (collect folderName files (init_state g)).2 in
    app_events (main g).2 =
      [PrintDataFrame (mk_data_frame (fileList st') (latList st') (longList st') (addrList st'));
       SaveMap (list_ascii_of_string "test_map.html") m; ShowMap m] /\
    getCenterPoint (latList st') = PyOk (map_lat m) /\
    getCenterPoint (longList st') = PyOk (map_long m) /\
    map_zoom m = zoomLevel /\ map_markers m = expected_markers scaleFactor st'.
Proof.
  intros Hl Hne. destruct (collect_loop folderName files (init_state g)) as (st' & _ & _ & Hrun & _).
  rewrite Hrun in Hne |- *. simpl in *.
  destruct (centres_of_kept st' (collect_aligned _ _ _ _ Hrun) Hne) as (cl & cg & Hcl & Hcg).
  rewrite (main_run_kept g files st' cl cg Hl Hrun Hcl Hcg). split; [done|]. eexists. repeat split; done.
Qed.

(** C27. A folder that cannot be listed ends main at once with the
    [OSError] of [os.listdir]: the only failure that is not isolated to
    one file. *)
Theorem main_listdir_error (g : geo_state) :
  listdir folderName = None -> main g = (PyRaise OSError, mk_app_state (init_state g) []).
Proof.
  intros Hl. unfold main, main_body.
  erewrite pbind_raise; [done|]. unfold of_option. rewrite Hl. done.
Qed.
(** C16. Error path of the marker loop (lines 116-121): when one of the
    lists read by index ([addrList], [latList], [longList],
    [fileFullnameList]) is shorter than [fileList], whose length bounds
    [range], the loop raises [IndexError]; the alignment of the lists
    ([reachable_aligned]) is what keeps [main] off this path. *)
Theorem add_markers_misaligned (sf : Q) (st : batch_state) (m : map_obj) :
  (length (addrList st) < length (fileList st) \/ length (latList st) < length (fileList st) \/
   length (longList st) < length (fileList st) \/
   length (fileFullnameList st) < length (fileList st))%nat ->
  fst (add_markers sf st m) = PyRaise IndexError.
Proof.
  intros Hshort. unfold add_markers.
  assert (exists i, (i < length (fileList st))%nat /\
            (addrList st !! i = None \/ fileList st !! i = None \/ latList st !! i = None \/
             longList st !! i = None \/ fileFullnameList st !! i = None)) as (i & Hi & Hnone).
  { destruct Hshort as [H|[H|[H|H]]]; eexists; split; try exact H;
      repeat first [by left; apply lookup_ge_None_2 | right]; by apply lookup_ge_None_2. }
  apply (py_for_raise _ _ _ i).
  - apply elem_of_seq. lia.
  - intros m0. by apply add_marker_out_of_range.
  - intros y m0. apply add_marker_result.
Qed.
(** C2. End-to-end refinement: when the folder lists [files], every image
    with EXIF data has its pixel dimensions, and the spec's contract
    locates at least one photo, main completes; the dataframe it prints
    has the fields of the located records as columns, the map it saves
    and shows is centred on their mean coordinates at zoom 14 and holds
    one marker per located record in listing order, and the service is
    left in the state of the spec's batch. *)
Theorem main_refines (g : geo_state) (files : list str) :
  listdir folderName = Some files -> forallb (dims_ok folderName) files = true ->
  flat_map located (spec_collect folderName files g).1 <> [] ->
  let rs := flat_map located (spec_collect folderName files g).1 in
  (main g).1 = PyOk tt /\ geo (app_batch (main g).2) = (spec_collect folderName files g).2 /\
  exists m,
    app_events (main g).2 =
      [PrintDataFrame (mk_data_frame (map rec_fileName rs) (map rec_lat rs) (map rec_long rs)
                         (map rec_addr rs));
       SaveMap (list_ascii_of_string "test_map.html") m; ShowMap m] /\
    getCenterPoint (map rec_lat rs) = PyOk (map_lat m) /\
    getCenterPoint (map rec_long rs) = PyOk (map_long m) /\
    map_zoom m = zoomLevel /\ map_markers m = map (record_marker scaleFactor) rs.
Proof.
  intros Hl Hd Hne rs.
  destruct (collect_refines_from folderName files (init_state g) Hd)
    as (st' & _ & Hrun & _ & Hg & (E1 & E2 & E3 & E4 & E5) & _). simpl in Hg, E1, E2, E3, E4, E5.
  assert (fileList st' <> []) as Hk by (rewrite E1; by destruct (flat_map _ _)).
  destruct (centres_of_kept st' (collect_aligned _ _ _ _ Hrun) Hk) as (cl & cg & Hcl & Hcg).
  rewrite (main_run_kept g files st' cl cg Hl Hrun Hcl Hcg). simpl.
  rewrite (expected_markers_records scaleFactor st' rs) by done.
  split; [done|]. split; [done|]. rewrite E1, E3, E4, E5 in *.
  eexists. repeat split; done.
Qed.
End MainTheorems.

(** ** Witnesses: the demo folder stored under the folder of line 47 *)

Module MainDemo.
Import Batch.Demo.

#[export] Instance main_fs : FileSystem :=
  {| listdir := fun _ => Some files; open_image := demo_open folderName |}.

(** A machine where the folder does not exist. *)
#[export] Instance missing_fs : FileSystem :=
  {| listdir := fun _ => None; open_image := fun _ => OpenFailed OSError |}.
(** The folder without the photo that lacks pixel dimensions. *)
Definition located_fs : FileSystem :=
  {| listdir := fun _ => Some (firstn 3 files); open_image := demo_open folderName |}.
End MainDemo.

Lemma main_map_witness :
  (main (FS := MainDemo.main_fs) (GC := Demo.demo_geo) Demo.g0).1 = PyOk tt /\
  exists m,
    let st' := (collect (FS := MainDemo.main_fs) (GC := Demo.demo_geo) folderName Demo.files
                  (init_state Demo.g0)).2 in
    app_events (main (FS := MainDemo.main_fs) (GC := Demo.demo_geo) Demo.g0).2 =
      [PrintDataFrame (mk_data_frame (fileList st') (latList st') (longList st') (addrList st'));
       SaveMap (list_ascii_of_string "test_map.html") m; ShowMap m] /\
    getCenterPoint (latList st') = PyOk (map_lat m) /\
    getCenterPoint (longList st') = PyOk (map_long m) /\
    map_zoom m = zoomLevel /\ map_markers m = expected_markers scaleFactor st'.
Proof.
  apply (main_map (FS := MainDemo.main_fs) (GC := Demo.demo_geo) Demo.g0 Demo.files).
  - reflexivity.
  - vm_compute. discriminate.
Defined.

Lemma main_listdir_error_witness :
  main (FS := MainDemo.missing_fs) (GC := Demo.demo_geo) Demo.g0 =
  (PyRaise OSError, mk_app_state (init_state Demo.g0) []).
Proof. apply main_listdir_error. reflexivity. Defined.

(** The marker of the spec's end-to-end example: the Eiffel photo at
    (48.858222, 2.2945) with its one-line tooltip. *)
Example main_eiffel_marker :
  expected_markers (GC := Demo.demo_geo) scaleFactor
    (collect (FS := MainDemo.main_fs) folderName Demo.files (init_state Demo.g0)).2 =
  [mk_marker (48858222 # 1000000) (2294500 # 1000000) (join_path folderName (Demo.s "eiffel.jpg"))
     scaleFactor (list_ascii_of_string "red")
     (list_ascii_of_string "eiffel.jpg  Avenue Anatole France Paris Ile-de-France 75007 France")].
Proof. vm_compute. reflexivity. Qed.

(** A state whose address list is shorter than its file list. *)
Lemma add_markers_misaligned_witness :
  fst (add_markers scaleFactor
         (mk_batch_state (GC := Batch.Demo.demo_geo) [] 0%nat [Batch.Demo.s "a.jpg"]
            [Batch.Demo.s "a.jpg"] [0%Q] [0%Q] [])
         (createMap 0 0 zoomLevel)) = PyRaise IndexError.
Proof. apply add_markers_misaligned. left. simpl. lia. Defined.

Lemma main_refines_witness :
  let rs := flat_map located
              (spec_collect (FS := MainDemo.located_fs) folderName (firstn 3 Demo.files) Demo.g0).1 in
  (main (FS := MainDemo.located_fs) (GC := Demo.demo_geo) Demo.g0).1 = PyOk tt /\
  geo (app_batch (main (FS := MainDemo.located_fs) Demo.g0).2) =
    (spec_collect (FS := MainDemo.located_fs) folderName (firstn 3 Demo.files) Demo.g0).2 /\
  exists m,
    app_events (main (FS := MainDemo.located_fs) Demo.g0).2 =
      [PrintDataFrame (mk_data_frame (map rec_fileName rs) (map rec_lat rs) (map rec_long rs)
                         (map rec_addr rs));
       SaveMap (list_ascii_of_string "test_map.html") m; ShowMap m] /\
    getCenterPoint (map rec_lat rs) = PyOk (map_lat m) /\
    getCenterPoint (map rec_long rs) = PyOk (map_long m) /\
    map_zoom m = zoomLevel /\ map_markers m = map (record_marker scaleFactor) rs.
Proof.
  apply (main_refines (FS := MainDemo.located_fs) (GC := Demo.demo_geo) Demo.g0 (firstn 3 Demo.files));
    [reflexivity|vm_compute; reflexivity|vm_compute; discriminate].
Defined.
